(** * lineProfLTE: LTE line profiles of a spherical cloud

    Shallow embedding of [src/lineProfLTE.py] and the properties its
    specification states about it.

    Conventions of the embedding.
    - Python floats are idealised as the real numbers [R]; [np.sqrt],
      [np.exp], [np.log], [np.sin], [abs] and [np.pi] are [sqrt], [exp], [ln],
      [sin], [Rabs] and [PI].  Rounding is outside the model.  The infinite
      and nan values that decide whether a call raises are kept apart, in
      [np_float].
    - A function that can raise has two definitions: the value it computes
      from the results of the library calls, and, with the suffix [_call],
      the exception it raises or the value it returns.
    - The values of [scipy.constants] and the numerical routines [odeint],
      [quad] (scipy.integrate) and [fmin] (scipy.optimize) are not part of
      the module: they are taken as parameters, bundled in two records.
    - A raised exception is a value of [outcome]. *)

From Stdlib Require Import Reals Lra Lia ZArith Bool List String.
Import ListNotations.

Open Scope bool_scope.
Open Scope R_scope.

(** ** Exceptions *)

(** [despoticError] is the error class imported from [.despoticError];
    [NameError] is what Python raises when an unbound global is evaluated.
    [ValueError] and [ZeroDivisionError] are the built-in classes that numpy,
    scipy and float division raise inside the module. *)
Inductive exception : Type :=
| NameError (name : string)
| despoticError (msg : string)
| ValueError
| ZeroDivisionError.

Inductive outcome (A : Type) : Type :=
| Return (a : A)
| Raise (e : exception).

Arguments Return {A} a.
Arguments Raise {A} e.

(** ** External collaborators *)

(** The attributes of [scipy.constants] read at import time (SI units). *)
Record scipy_constants : Type := {
  physcons_k : R;
  physcons_c : R;
  physcons_m_p : R;
  physcons_h : R;
  physcons_sigma : R;
  physcons_G : R
}.

(** The three scipy routines, with the arguments the module passes.
    - [odeint func y0 t0 t1 mxstep atol rtol] is
      [odeint(func, y0, [t0, t1], mxstep=.., atol=.., rtol=..)[1]], the
      solution at [t1]; [func] receives the state first and the coordinate
      second, as scipy calls it.
    - [fmin func x0 xtol] is [fmin(func, x0, xtol=..)[0][0]], the located
      minimiser.
    - [quad func a b] is [quad(func, a, b)[0]]. *)
Record scipy_routines : Type := {
  odeint : (R -> R -> R) -> R -> R -> R -> Z -> R -> R -> R;
  fmin : (R -> R) -> R -> R -> R;
  quad : (R -> R) -> R -> R -> R
}.

(** The fields of an [emitterData] object that the module reads. *)
Record emitterData : Type := {
  EinsteinA : Z -> Z -> R;
  freq : Z -> Z -> R;
  levWgt : Z -> R;
  levTemp : Z -> R;
  partFunc : R -> R;
  molWgt : R
}.

(** A profile argument: [isinstance(p, float)] holds for [PyFloat], any
    other argument is called as a function of the normalised radius. *)
Inductive profile : Type :=
| PyFloat (x : R)
| Callable (g : R -> R).

(** ** Module-level constants *)

(** Small number to avoid divide by zeros. *)
Definition small : R := 1e-50.

Section LineProfLTE.

(** The constants and routines of the scipy installation in use. *)
Variable physcons : scipy_constants.
Variable scipy : scipy_routines.

(** Global physical constants in cgs units. *)
Definition kB : R := physcons_k physcons * 1e7.
Definition c : R := physcons_c physcons * 1e2.
Definition mH : R := physcons_m_p physcons * 1e3.
Definition h : R := physcons_h physcons * 1e7.
Definition sigma : R := physcons_sigma physcons * 1e3.
Definition a : R := 4 * sigma / c.
Definition G : R := physcons_G physcons * 1e3.
Definition M_sun : R := 1.989 * 10 ^ 33.

(** ** Helper classes *)

(** [class _normFunc]: [f(arg) = func(arg) / norm]. *)
Record _normFunc : Type := {
  nf_func : R -> R;
  nf_norm : R
}.

Definition _normFunc_f (self : _normFunc) (arg : R) : R :=
  nf_func self arg / nf_norm self.

(** [class _normFunc2]: [f(arg) = func(arg * norm)]. *)
Record _normFunc2 : Type := {
  nf2_func : R -> R;
  nf2_norm : R
}.

Definition _normFunc2_f (self : _normFunc2) (arg : R) : R :=
  nf2_func self (arg * nf2_norm self).

(** Dummy function that just returns 1.0. *)
Definition _unity (r : R) : R := 1.

(** [class _transferEqn]: the attributes set by [__init__]. *)
Record _transferEqn : Type := {
  te_d : _normFunc;
  te_T : _normFunc;
  te_v0 : R;
  te_u : _normFunc;
  te_sigma : _normFunc;
  te_beta : R;
  te_betas : R;
  te_betaNT : R;
  te_freq : R;
  te_Theta : R;
  te_tau0 : R;
  te_I0 : R;
  te_prefac : R;
  te_Z : _normFunc2;
  te_offset : R;
  te_sigmaTot : R
}.

(** The normalisation constant and the function object built from one
    profile argument ([__init__], "Get normalizations, and set up function
    pointers"). *)
Definition profile_norm (p : profile) : R :=
  match p with
  | PyFloat x => x
  | Callable g => g 1
  end.

Definition profile_func (p : profile) : _normFunc :=
  match p with
  | PyFloat _ => {| nf_func := _unity; nf_norm := 1 |}
  | Callable g => {| nf_func := g; nf_norm := g 1 |}
  end.

(** [_transferEqn.__init__] *)
Definition _transferEqn_init (emdat : emitterData) (u l : Z) (Rad : R)
      (denProf TProf vProf sigmaProf : profile) (offset : R) : _transferEqn :=
    let d0 := profile_norm denProf in
    let T0 := profile_norm TProf in
    let v0 := profile_norm vProf in
    let sigma0 := profile_norm sigmaProf in
    let cs0 := sqrt (kB * T0 / (molWgt emdat * mH)) in
    let wavelength := c / freq emdat u l in
    {| te_d := profile_func denProf;
       te_T := profile_func TProf;
       te_v0 := v0;
       te_u := profile_func vProf;
       te_sigma := profile_func sigmaProf;
       te_beta := v0 / c;
       te_betas := cs0 / c;
       te_betaNT := sigma0 / c;
       te_freq := freq emdat u l;
       te_Theta := h * c / (wavelength * kB * T0);
       te_tau0 := EinsteinA emdat u l * wavelength ^ 3 * d0 * Rad / (2 * c);
       te_I0 := EinsteinA emdat u l * d0 * h * Rad;
       te_prefac := d0 * levWgt emdat u * exp (- levTemp emdat l / T0)
                    / (4 * PI);
       te_Z := {| nf2_func := partFunc emdat; nf2_norm := T0 |};
       te_offset := offset;
       te_sigmaTot := sqrt (cs0 ^ 2 + v0 ^ 2) |}.

(** [_transferEqn.rhs]: the right-hand side of the transfer equation. *)
Definition rhs (self : _transferEqn) (I x f : R) : R :=
  let r := sqrt (x ^ 2 + te_offset self ^ 2) in
  let sigmaf :=
    sqrt (te_betas self ^ 2 * _normFunc_f (te_T self) r
          + te_betaNT self ^ 2 * _normFunc_f (te_sigma self) r ^ 2) in
  let f0 :=
    1 - te_beta self * _normFunc_f (te_u self) r * sin (x / (r + small)) in
  let phif :=
    1 / sqrt (2 * PI * sigmaf ^ 2)
    * exp (- (f - f0) ^ 2 / (2 * sigmaf ^ 2)) in
  _normFunc_f (te_d self) r
  * (te_prefac self / _normFunc2_f (te_Z self) (_normFunc_f (te_T self) r))
  * (exp (- te_Theta self / _normFunc_f (te_T self) r)
     - te_tau0 self
       * (1 - exp (- te_Theta self / _normFunc_f (te_T self) r)) * I)
  * phif.

(** [_transferEqn.rhs_log]: the same derivative in the coordinate
    [logx], with [x = sgn * exp(logx)]. *)
Definition rhs_log (self : _transferEqn) (I logx : R) (te : _transferEqn)
    (f : R) (sgn : Z) : R :=
  IZR sgn * rhs te I (IZR sgn * exp logx) f
  * (exp logx ^ 2 / sqrt (exp logx ^ 2 + te_offset self ^ 2)).

(** ** Comparisons of floats *)

Definition Reqb (x y : R) : bool := if Req_dec_T x y then true else false.
Definition Rltb (x y : R) : bool := if Rlt_dec x y then true else false.

(** ** numpy.arange *)

(** The least integer not below [x]. *)
Definition ceilZ (x : R) : Z := (1 - up (- x))%Z.

(** [np.arange(start, stop, step)]: the [ceil((stop - start) / step)] values
    [start + i * step]; empty when that count is not positive.  The quotient
    is the real one: where it falls on an integer, or within rounding of one,
    numpy's count can differ by one.  A step of zero does not come here, see
    [velocities_raises]. *)
Definition arange (start stop step : R) : list R :=
  map (fun i => start + INR i * step)
      (seq 0 (Z.to_nat (ceilZ ((stop - start) / step)))).

(** ** LineProfLTE_pencil *)

(** Frequency normalized to line-center value. *)
Definition pencil_f (v : R) : R := 1 + v / c.

(** Normalized CMB intensity at line frequency. *)
Definition pencil_ICMB (v : R) (te : _transferEqn) (TCMB : R) : R :=
  (2 * h * te_freq te ^ 3 / c ^ 2)
  / (exp (h * pencil_f v * te_freq te / (kB * TCMB)) - 1)
  / te_I0 te.

Definition pencil_sign (v : R) : Z :=
  if Rltb v 0 then (-1)%Z else 1%Z.

(** [r_los = fmin(lambda x: -te.rhs(ICMB, sign*x, f), 0.001, xtol=10**-5,
    ...)[0][0]] *)
Definition pencil_r_los (v : R) (te : _transferEqn) (TCMB : R) : R :=
  fmin scipy
    (fun x => - rhs te (pencil_ICMB v te TCMB) (IZR (pencil_sign v) * x)
                    (pencil_f v))
    0.001 1e-5.

(** The three list literals of the branch [r_los < 1]. *)
Definition xLim (r_los : R) : list R :=
  [-1; -1.1 * r_los; - r_los; - r_los / 10; - r_los / 100;
   r_los / 100; r_los / 10; r_los; 1.1 * r_los; 1].

Definition logscale : list bool :=
  [true; true; true; true; false; true; true; true; true; true].

Definition sgn : list Z := [-1; -1; -1; -1; -1; 0; 1; 1; 1; 1; 1]%Z.

(** The arguments handed to [np.log] in pass [i] of the loop over the
    breakpoints: [sgn[i]*xLim[i]] and [sgn[i]*xLim[i+1]]. *)
Definition log_arguments (r_los : R) (i : nat) : R * R :=
  (IZR (nth i sgn 0%Z) * nth i (xLim r_los) 0,
   IZR (nth i sgn 0%Z) * nth (S i) (xLim r_los) 0).

(** One pass through the body of [for i in range(len(xLim)-1)]: the value
    assigned to [Itmp], as the result of the [odeint] call of the pass.  The
    logarithm is the real one; what [np.log] gives outside the positive
    numbers, and what [odeint] does with it, is in [pencil_interior_call]
    below. *)
Definition pencil_segment (te : _transferEqn) (f r_los : R) (i : nat)
    (Itmp : R) : R :=
  if nth i logscale false then
    odeint scipy (fun I logx => rhs_log te I logx te f (nth i sgn 0%Z)) Itmp
      (ln (IZR (nth i sgn 0%Z) * nth i (xLim r_los) 0))
      (ln (IZR (nth i sgn 0%Z) * nth (S i) (xLim r_los) 0))
      10000 1e-11 1e-11
  else
    odeint scipy (fun I x => rhs te I x f) Itmp
      (nth i (xLim r_los) 0) (nth (S i) (xLim r_los) 0)
      10000 1e-11 1e-11.

(** The loop of the branch [r_los < 1], started from [Itmp = ICMB]: the
    chain of the nine solves as the code writes them.  Whether the chain is
    run to its end is in [pencil_interior_call]. *)
Definition pencil_interior (te : _transferEqn) (f r_los ICMB : R) : R :=
  fold_left (fun Itmp i => pencil_segment te f r_los i Itmp)
            (seq 0 (List.length (xLim r_los) - 1)) ICMB.

(** The [else] branch: one solve over [sLim]. *)
Definition pencil_exterior (te : _transferEqn) (f ICMB offset : R)
    (mxstep : Z) : R :=
  odeint scipy (fun I x => rhs te I x f) ICMB
    (- sqrt (1 - offset ^ 2)) (sqrt (1 - offset ^ 2))
    mxstep 1e-11 1e-11.

(** The value [LineProfLTE_pencil] computes from the results of its solves;
    [LineProfLTE_pencil_call] tells whether it gets to return it. *)
Definition LineProfLTE_pencil (v : R) (te : _transferEqn) (offset TCMB : R)
    (mxstep : Z) : R :=
  let f := pencil_f v in
  let ICMB := pencil_ICMB v te TCMB in
  let r_los := pencil_r_los v te TCMB in
  let Itmp :=
    if Rltb r_los 1 then pencil_interior te f r_los ICMB
    else pencil_exterior te f ICMB offset mxstep in
  Itmp - ICMB.

(** *** Exceptions raised during the integration *)

(** A float as [np.log] and [np.sqrt] return it: a number, minus infinity
    or nan. *)
Inductive np_float : Type :=
| Finite (x : R)
| NegInf
| NaN.

(** [np.log]: minus infinity at zero and nan below (with a warning, not an
    exception). *)
Definition np_log (x : R) : np_float :=
  if Rltb 0 x then Finite (ln x)
  else if Reqb x 0 then NegInf
  else NaN.

(** [odeint] raises [ValueError] unless the differences of its time points
    are all non-negative or all non-positive.  A difference with nan, and the
    difference of minus infinity with itself, are nan and fail both tests. *)
Definition odeint_rejects (t0 t1 : np_float) : bool :=
  match t0, t1 with
  | NaN, _ => true
  | _, NaN => true
  | NegInf, NegInf => true
  | _, _ => false
  end.

(** Whether the [odeint] call of pass [i] raises: only a pass in the
    logarithmic coordinate can have time points that are not numbers. *)
Definition pass_rejected (r_los : R) (i : nat) : bool :=
  nth i logscale false
  && odeint_rejects (np_log (fst (log_arguments r_los i)))
                    (np_log (snd (log_arguments r_los i))).

(** The loop over the passes as it runs: each pass either raises or hands
    its result to the next. *)
Fixpoint pencil_passes (segment : nat -> R -> R) (rejected : nat -> bool)
    (passes : list nat) (Itmp : R) : outcome R :=
  match passes with
  | [] => Return Itmp
  | i :: rest =>
      if rejected i then Raise ValueError
      else pencil_passes segment rejected rest (segment i Itmp)
  end.

Definition pencil_interior_call (te : _transferEqn) (f r_los ICMB : R)
    : outcome R :=
  pencil_passes (pencil_segment te f r_los) (pass_rejected r_los)
    (seq 0 (List.length (xLim r_los) - 1)) ICMB.

(** A call of [LineProfLTE_pencil]: the exception it raises, or the value
    it returns.  In the [else] branch [np.sqrt] of a negative number is nan,
    which [odeint] rejects as well. *)
Definition LineProfLTE_pencil_call (v : R) (te : _transferEqn)
    (offset TCMB : R) (mxstep : Z) : outcome R :=
  let f := pencil_f v in
  let ICMB := pencil_ICMB v te TCMB in
  let r_los := pencil_r_los v te TCMB in
  if Rltb r_los 1 then
    match pencil_interior_call te f r_los ICMB with
    | Return Itmp => Return (Itmp - ICMB)
    | Raise e => Raise e
    end
  else if Rltb (1 - offset ^ 2) 0 then Raise ValueError
  else Return (pencil_exterior te f ICMB offset mxstep - ICMB).

(** ** lineProfLTE *)

(** Step 3: construct list of velocities at which to output.  [vLim] given
    by the caller holds Python floats; the automatic limits are numpy floats,
    for which a division by [nOut - 1 = 0] gives an infinite step, and
    [np.arange] with an infinite step keeps its start alone. *)
Definition velocities (te : _transferEqn) (vOut : option (list R))
    (vLim : option (R * R)) (nOut : Z) (dv : option R) : list R :=
  match vOut with
  | Some vs => vs
  | None =>
      match dv with
      | None =>
          match vLim with
          | Some vLim =>
              arange (fst vLim) (snd vLim * (1 + 1e-6))
                     ((snd vLim - fst vLim) / IZR (nOut - 1))
          | None =>
              let vLim := (-5 * te_sigmaTot te - Rabs (te_v0 te),
                           5 * te_sigmaTot te + Rabs (te_v0 te)) in
              if (nOut =? 1)%Z then [fst vLim]
              else
                arange (fst vLim) (snd vLim * (1 + 1e-6))
                       ((snd vLim - fst vLim) / IZR (nOut - 1))
          end
      | Some dv =>
          arange (- dv * (IZR nOut / 2)) (dv * (IZR nOut / 2 + 1e-6)) dv
      end
  end.

(** The exception of Step 3, if there is one.  [vOut == None] on an array
    compares entry by entry, and the truth value that [if] asks for exists
    for an array of one entry only: [ValueError] for two or more entries
    (and, since NumPy 2.2, for none).  A spacing of
    zero, limits given with [nOut = 1], and equal limits make a division by
    zero among Python floats: [ZeroDivisionError]. *)
Definition velocities_raises (vOut : option (list R))
    (vLim : option (R * R)) (nOut : Z) (dv : option R) : option exception :=
  match vOut with
  | Some vs => if (List.length vs =? 1)%nat then None else Some ValueError
  | None =>
      match dv with
      | None =>
          match vLim with
          | Some vLim =>
              if (nOut =? 1)%Z then Some ZeroDivisionError
              else if Reqb (fst vLim) (snd vLim) then Some ZeroDivisionError
              else None
          | None => None
          end
      | Some dv => if Reqb dv 0 then Some ZeroDivisionError else None
      end
  end.

Definition velocities_call (te : _transferEqn) (vOut : option (list R))
    (vLim : option (R * R)) (nOut : Z) (dv : option R)
    : outcome (list R) :=
  match velocities_raises vOut vLim nOut dv with
  | Some e => Raise e
  | None => Return (velocities te vOut vLim nOut dv)
  end.

(** Step 4, the body of the loop over velocities: the value stored in
    [iOut.flat[i]]. *)
Definition intensity_at (te : _transferEqn) (offset TCMB : R) (mxstep : Z)
    (beamdisp v : R) : R :=
  if Reqb beamdisp 0 then
    LineProfLTE_pencil v te offset TCMB mxstep
  else
    1 / beamdisp ^ 2
    * quad scipy
        (fun r => r * exp (- r ^ 2 / (2 * beamdisp ^ 2))
                  * LineProfLTE_pencil v te offset TCMB mxstep)
        0 1.

(** The same with the exceptions: with or without a beam, the pencil call
    is made (by [quad], for every radius it samples), and what it raises
    leaves the loop. *)
Definition intensity_at_call (te : _transferEqn) (offset TCMB : R)
    (mxstep : Z) (beamdisp v : R) : outcome R :=
  match LineProfLTE_pencil_call v te offset TCMB mxstep with
  | Raise e => Raise e
  | Return _ => Return (intensity_at te offset TCMB mxstep beamdisp v)
  end.

(** The loop [for i in range(vOut.size)], left at the first call that
    raises. *)
Fixpoint line_profile_loop (call : R -> outcome R) (vOut : list R)
    : outcome (list R) :=
  match vOut with
  | [] => Return []
  | v :: rest =>
      match call v with
      | Raise e => Raise e
      | Return Iv =>
          match line_profile_loop call rest with
          | Raise e => Raise e
          | Return iOut => Return (Iv :: iOut)
          end
      end
  end.

(** Step 5, for one entry of [iOut]: convert intensity to brightness
    temperature, then apply the two masked assignments. *)
Definition brightness (emdat : emitterData) (u l : Z) (te : _transferEqn)
    (iOut : R) : R :=
  let TB :=
    (h * freq emdat u l / kB)
    / ln (1 + 2 * h * freq emdat u l ^ 3
              / (c ^ 2 * Rabs iOut * te_I0 te + small)) in
  let TB := if Rltb iOut 0 then TB * -1 else TB in
  if Reqb iOut 0 then 0 else TB.

Definition lineProfLTE (emdat : emitterData) (u l : Z) (Rad : R)
    (denProf TProf vProf sigmaProf : profile) (offset TCMB : R)
    (vOut : option (list R)) (vLim : option (R * R)) (nOut : Z)
    (dv : option R) (mxstep : Z) (beamdisp : R)
    : outcome (list R * list R) :=
  (* Step 1: safety check *)
  if Reqb (EinsteinA emdat u l) 0 then
    Raise (NameError "depoticError")
  else if Rltb offset 0 || Rltb 1 offset then
    Raise (despoticError "offset must be in the range 0 - 1")
  else if Rltb 0 beamdisp && Rltb 0 offset then
    Raise (despoticError "offset > 0 with Gaussian beams not yet implemented")
  else
    (* Step 2: set up the helper class *)
    let te := _transferEqn_init emdat u l Rad denProf TProf vProf sigmaProf
                offset in
    (* Step 3: construct list of velocities at which to output *)
    match velocities_call te vOut vLim nOut dv with
    | Raise e => Raise e
    | Return vOut =>
        (* Step 4: get line profile *)
        match line_profile_loop
                (intensity_at_call te offset TCMB mxstep beamdisp) vOut with
        | Raise e => Raise e
        | Return iOut =>
            (* Step 5: convert intensity to brightness temperature *)
            let TB := map (brightness emdat u l te) iOut in
            (* Step 6: return *)
            Return (TB, vOut)
        end
    end.

(** The call with every keyword argument left at the default of the
    signature: [vProf=0.0, sigmaProf=0.0, offset=0.0, TCMB=2.73, vOut=None,
    vLim=None, nOut=100, dv=None, mxstep=10000, beamdisp=0.0]. *)
Definition lineProfLTE_defaults (emdat : emitterData) (u l : Z) (Rad : R)
    (denProf TProf : profile) : outcome (list R * list R) :=
  lineProfLTE emdat u l Rad denProf TProf (PyFloat 0) (PyFloat 0) 0 2.73
    None None 100 None 10000 0.

(** [LineProfLTE_pencil] has the defaults [offset=0.0, TCMB=2.73,
    mxstep=10000]. *)
Definition LineProfLTE_pencil_defaults (v : R) (te : _transferEqn) : R :=
  LineProfLTE_pencil v te 0 2.73 10000.

End LineProfLTE.

(** ** The other right-hand sides of [_transferEqn] *)

(** [_transferEqn.rhs_ode]: written for [scipy.integrate.ode], which passes
    the coordinate first and the state second. *)
Definition rhs_ode (self : _transferEqn) (x I f : R) : R :=
  let r := sqrt (x ^ 2 + te_offset self ^ 2) in
  let sigmaf :=
    sqrt (te_betas self ^ 2 * _normFunc_f (te_T self) r
          + te_betaNT self ^ 2 * _normFunc_f (te_sigma self) r ^ 2) in
  let f0 :=
    1 - te_beta self * _normFunc_f (te_u self) r * sin (x / (r + small)) in
  let phif :=
    1 / sqrt (2 * PI * sigmaf ^ 2)
    * exp (- (f - f0) ^ 2 / (2 * sigmaf ^ 2)) in
  let rhs :=
    _normFunc_f (te_d self) r
    * (te_prefac self / _normFunc2_f (te_Z self) (_normFunc_f (te_T self) r))
    * (exp (- te_Theta self / _normFunc_f (te_T self) r)
       - te_tau0 self
         * (1 - exp (- te_Theta self / _normFunc_f (te_T self) r)) * I)
    * phif in
  rhs.

(** [_transferEqn.rhs_log_ode] *)
Definition rhs_log_ode (self : _transferEqn) (logx I : R) (te : _transferEqn)
    (f : R) (sgn : Z) : R :=
  IZR sgn * rhs te I (IZR sgn * exp logx) f
  * (exp logx ^ 2 / sqrt (exp logx ^ 2 + te_offset self ^ 2)).

(** [_transferEqn.rhs1] *)
Definition rhs1 (self : _transferEqn) (x I f : R) : R :=
  let r := sqrt (x ^ 2 + te_offset self ^ 2) in
  let sigmaf :=
    sqrt (te_betas self ^ 2 * _normFunc_f (te_T self) r
          + te_betaNT self ^ 2 * _normFunc_f (te_sigma self) r ^ 2) in
  let f0 :=
    1 - te_beta self * _normFunc_f (te_u self) r * sin (x / (r + small)) in
  let phif :=
    1 / sqrt (2 * PI * sigmaf ^ 2)
    * exp (- (f - f0) ^ 2 / (2 * sigmaf ^ 2)) in
  _normFunc_f (te_d self) r
  * (te_prefac self / _normFunc2_f (te_Z self) (_normFunc_f (te_T self) r))
  * (exp (- te_Theta self / _normFunc_f (te_T self) r)
     - te_tau0 self
       * (1 - exp (- te_Theta self / _normFunc_f (te_T self) r)) * I)
  * phif.

(** ** Auxiliary notions *)

(** The physical value of a profile argument at the radius [r]. *)
Definition profile_value (p : profile) (r : R) : R :=
  match p with
  | PyFloat x => x
  | Callable g => g r
  end.

(** A list of reals in strictly increasing order. *)
Fixpoint increasing (l : list R) : Prop :=
  match l with
  | x :: tl =>
      match tl with
      | y :: _ => x < y /\ increasing tl
      | [] => True
      end
  | [] => True
  end.

(** A quadrature rule through which a constant factor of the integrand
    passes. *)
Definition homogeneous (q : (R -> R) -> R -> R -> R) : Prop :=
  forall (g : R -> R) (k lo hi : R),
    q (fun r => g r * k) lo hi = q g lo hi * k.

(** ** The specification's formulas *)

(** A radial profile in normalised form: a constant profile is identically
    one, a function is divided by its edge value [profile(1.0)]. *)
Definition normalized (p : profile) (r : R) : R :=
  match p with
  | PyFloat _ => 1
  | Callable g => g r / g 1
  end.

(** The local derivative as the specification computes it, steps 1 to 6:
    radius, line width, line centre, Gaussian line shape, source/absorption
    term, product.  [Zpart] is the partition function of the emitter, applied
    to the physical temperature [Tnorm r * T0]. *)
Definition rhs_spec (dnorm Tnorm unorm sigmanorm Zpart : R -> R)
    (T0 beta betas betaNT Theta tau0 prefactor offset : R) (I x f : R) : R :=
  let r := sqrt (x ^ 2 + offset ^ 2) in
  let sigmaf := sqrt (betas ^ 2 * Tnorm r + betaNT ^ 2 * sigmanorm r ^ 2) in
  let f0 := 1 - beta * unorm r * sin (x / (r + small)) in
  let phi :=
    1 / sqrt (2 * PI * sigmaf ^ 2) * exp (- (f - f0) ^ 2 / (2 * sigmaf ^ 2)) in
  let S :=
    dnorm r * (prefactor / Zpart (Tnorm r * T0))
    * (exp (- Theta / Tnorm r) - tau0 * (1 - exp (- Theta / Tnorm r)) * I) in
  S * phi.

(** Brightness temperature of a non-zero intensity of magnitude [absI]:
    [(h nu / kB) / ln (1 + 2 h nu^3 / (c^2 |I| I0 + eps))]. *)
Definition TB_spec (hP kBoltz cl nu I0 absI : R) : R :=
  (hP * nu / kBoltz)
  / ln (1 + 2 * hP * nu ^ 3 / (cl ^ 2 * absI * I0 + small)).

(** The normalised CMB intensity as the specification writes it:
    [(2 h f^3 nu^3 / c^2) / (exp (h f nu / (kB TCMB)) - 1) / I0]. *)
Definition ICMB_spec (hP kBoltz cl nu I0 TCMB f : R) : R :=
  (2 * hP * f ^ 3 * nu ^ 3 / cl ^ 2)
  / (exp (hP * f * nu / (kBoltz * TCMB)) - 1)
  / I0.

(** The same with the prefactor at the line-centre frequency:
    [(2 h nu^3 / c^2) / (exp (h f nu / (kB TCMB)) - 1) / I0]. *)
Definition ICMB_line_centre (hP kBoltz cl nu I0 TCMB f : R) : R :=
  (2 * hP * nu ^ 3 / cl ^ 2)
  / (exp (hP * f * nu / (kBoltz * TCMB)) - 1)
  / I0.

(** The two kinds of solve of the sightline integration, between the
    breakpoints [x0] and [x1] and from the intensity [I0]: in the logarithmic
    coordinate on the side [s] of the origin, and in the coordinate [x]
    itself.  [budget] is the maximum number of steps. *)
Definition log_solve (scipy : scipy_routines) (te : _transferEqn) (f : R)
    (s : Z) (budget : Z) (I0 x0 x1 : R) : R :=
  odeint scipy (fun I logx => rhs_log te I logx te f s) I0
    (ln (IZR s * x0)) (ln (IZR s * x1)) budget 1e-11 1e-11.

Definition linear_solve (scipy : scipy_routines) (te : _transferEqn) (f : R)
    (budget : Z) (I0 x0 x1 : R) : R :=
  odeint scipy (fun I x => rhs te I x f) I0 x0 x1 budget 1e-11 1e-11.

(** The failure kinds of the specification, as the module signals them:
    all are [despoticError], told apart by the message. *)
Definition InvalidOffsetError : exception :=
  despoticError "offset must be in the range 0 - 1".

Definition UnsupportedConfigurationError : exception :=
  despoticError "offset > 0 with Gaussian beams not yet implemented".

Definition is_despoticError (e : exception) : bool :=
  match e with
  | despoticError _ => true
  | _ => false
  end.

(** The four sources of a velocity grid, and the grid each one gives for
    [count] points on the cloud [te]. *)
Inductive grid_source : Type :=
| Explicit (vs : list R)
| Limits (lo hi : R)
| Spacing (d : R)
| Auto.

Definition grid_from (te : _transferEqn) (count : Z) (src : grid_source)
    : list R :=
  let limits lo hi :=
    arange lo (hi * (1 + 1e-6)) ((hi - lo) / IZR (count - 1)) in
  match src with
  | Explicit vs => vs
  | Limits lo hi => limits lo hi
  | Spacing d => arange (- d * (IZR count / 2)) (d * (IZR count / 2 + 1e-6)) d
  | Auto =>
      let L := 5 * te_sigmaTot te + Rabs (te_v0 te) in
      if (count =? 1)%Z then [- L] else limits (- L) L
  end.

(** The precedence in the order of the specification: explicit sequence,
    then limits, then spacing, then automatic. *)
Definition source_spec (vOut : option (list R)) (vLim : option (R * R))
    (dv : option R) : grid_source :=
  match vOut, vLim, dv with
  | Some vs, _, _ => Explicit vs
  | None, Some (lo, hi), _ => Limits lo hi
  | None, None, Some d => Spacing d
  | None, None, None => Auto
  end.

(** The precedence with spacing ahead of limits: explicit sequence, then
    spacing, then limits, then automatic. *)
Definition source_spacing_first (vOut : option (list R))
    (vLim : option (R * R)) (dv : option R) : grid_source :=
  match vOut, dv, vLim with
  | Some vs, _, _ => Explicit vs
  | None, Some d, _ => Spacing d
  | None, None, Some (lo, hi) => Limits lo hi
  | None, None, None => Auto
  end.

(** The beam integral as the specification writes it, for the pencil
    result [Ipencil r] at the impact parameter [r]. *)
Definition beam_spec (scipy : scipy_routines) (beamdisp : R)
    (Ipencil : R -> R) : R :=
  quad scipy
    (fun r => r / beamdisp ^ 2 * exp (- r ^ 2 / (2 * beamdisp ^ 2))
              * Ipencil r)
    0 1.

(** ** Concrete inputs *)


(** The CODATA 2018 values of [scipy.constants]. *)
Definition codata2018 : scipy_constants :=
  {| physcons_k := 1.380649e-23;
     physcons_c := 299792458;
     physcons_m_p := 1.67262192369e-27;
     physcons_h := 6.62607015e-34;
     physcons_sigma := 5.670374419e-8;
     physcons_G := 6.67430e-11 |}.

(** The emitter of the specification's scenario: one transition, from
    state 1 to state 0, with [EinsteinA = 1e-5], [freq = 1e11],
    [levWgt = 3], [levTemp = 10], [partFunc = 1] and [molWgt = 28]. *)
Definition emitter1 : emitterData :=
  {| EinsteinA := fun u l => if (u =? 1)%Z && (l =? 0)%Z then 1e-5 else 0;
     freq := fun _ _ => 1e11;
     levWgt := fun _ => 3;
     levTemp := fun _ => 10;
     partFunc := fun _ => 1;
     molWgt := 28 |}.

(** Its cloud: radius [3e16] cm, uniform density [1e4] and temperature
    [20] K, no bulk or non-thermal motion, seen at the given offset. *)
Definition cloud1 (offset : R) : _transferEqn :=
  _transferEqn_init codata2018 emitter1 1 0 3e16
    (PyFloat 1e4) (PyFloat 20) (PyFloat 0) (PyFloat 0) offset.

(** Stand-ins for the scipy routines, to run the module on concrete
    inputs.  [fmin] reports the minimiser [x_min] whatever the objective and
    [quad] is the midpoint rule.  With [counting_routines] every solve adds
    one to the state, so that a result counts the solves behind it; with
    [budget_routines] a solve returns the step budget it was given. *)
Definition counting_routines (x_min : R) : scipy_routines :=
  {| odeint := fun _ y0 _ _ _ _ _ => y0 + 1;
     fmin := fun _ _ _ => x_min;
     quad := fun g lo hi => (hi - lo) * g ((lo + hi) / 2) |}.

Definition budget_routines (x_min : R) : scipy_routines :=
  {| odeint := fun _ _ _ _ mxstep _ _ => IZR mxstep;
     fmin := fun _ _ _ => x_min;
     quad := fun g lo hi => (hi - lo) * g ((lo + hi) / 2) |}.

(** With [interval_routines] a solve adds the length of its interval to
    the state, as for the equation [dI/dx = 1]. *)
Definition interval_routines (x_min : R) : scipy_routines :=
  {| odeint := fun _ y0 t0 t1 _ _ _ => y0 + (t1 - t0);
     fmin := fun _ _ _ => x_min;
     quad := fun g lo hi => (hi - lo) * g ((lo + hi) / 2) |}.

(** The scenario run at a given offset, at the velocities [-500], [0] and
    [500] km/s and with the other arguments at their defaults. *)
Definition scenario (scipy : scipy_routines) (offset : R)
    : outcome (list R * list R) :=
  lineProfLTE codata2018 scipy emitter1 1 0 3e16 (PyFloat 1e4) (PyFloat 20)
    (PyFloat 0) (PyFloat 0) offset 2.73 (Some [-5e7; 0; 5e7]) None 100 None
    10000 0.

(** The same run at the single velocity [0]. *)
Definition single_velocity_run (scipy : scipy_routines) (offset : R)
    : outcome (list R * list R) :=
  lineProfLTE codata2018 scipy emitter1 1 0 3e16 (PyFloat 1e4) (PyFloat 20)
    (PyFloat 0) (PyFloat 0) offset 2.73 (Some [0]) None 100 None 10000 0.

(** * Properties *)

Section Properties.

Variable physcons : scipy_constants.
Variable scipy : scipy_routines.

(** ** The local derivative *)

Lemma profile_func_f (p : profile) (r : R) :
  _normFunc_f (profile_func p) r = normalized p r.
Proof.
  destruct p as [x | g]; unfold _normFunc_f; simpl.
  - unfold _unity. field.
  - reflexivity.
Qed.

(** C1. For the transfer-equation object built by [__init__], [rhs] returns
    for every intensity [I], coordinate [x] and frequency ratio [f] the
    product of the source/absorption term and the Gaussian line shape of the
    specification, with [r = sqrt (x^2 + offset^2)], the normalised profiles
    of the four arguments, and the partition function of the emitter applied
    to the physical temperature [Tnorm r * T0]. *)
Theorem C1_rhs_formula (emdat : emitterData) (u l : Z) (Rad : R)
    (denProf TProf vProf sigmaProf : profile) (offset I x f : R) :
  let te := _transferEqn_init physcons emdat u l Rad denProf TProf vProf
              sigmaProf offset in
  rhs te I x f =
  rhs_spec (normalized denProf) (normalized TProf) (normalized vProf)
    (normalized sigmaProf) (partFunc emdat) (profile_norm TProf)
    (te_beta te) (te_betas te) (te_betaNT te) (te_Theta te) (te_tau0 te)
    (te_prefac te) offset I x f.
Proof.
  intros te. unfold rhs, rhs_spec.
  assert (Hd : forall r, _normFunc_f (te_d te) r = normalized denProf r)
    by (intro; apply profile_func_f).
  assert (HT : forall r, _normFunc_f (te_T te) r = normalized TProf r)
    by (intro; apply profile_func_f).
  assert (Hu : forall r, _normFunc_f (te_u te) r = normalized vProf r)
    by (intro; apply profile_func_f).
  assert (Hs : forall r, _normFunc_f (te_sigma te) r = normalized sigmaProf r)
    by (intro; apply profile_func_f).
  assert (HZ : forall t, _normFunc2_f (te_Z te) t
                         = partFunc emdat (t * profile_norm TProf))
    by reflexivity.
  cbv zeta. rewrite !Hd, !HT, !Hu, !Hs, HZ.
  replace (te_offset te) with offset by reflexivity.
  reflexivity.
Qed.

(** ** Brightness temperature *)

Lemma Reqb_true (x y : R) : x = y -> Reqb x y = true.
Proof. intros H. unfold Reqb. destruct (Req_dec_T x y); congruence. Qed.

Lemma Reqb_false (x y : R) : x <> y -> Reqb x y = false.
Proof. intros H. unfold Reqb. destruct (Req_dec_T x y); congruence. Qed.

Lemma Rltb_true (x y : R) : x < y -> Rltb x y = true.
Proof. intros H. unfold Rltb. destruct (Rlt_dec x y); [reflexivity | lra]. Qed.

Lemma Rltb_false (x y : R) : y <= x -> Rltb x y = false.
Proof. intros H. unfold Rltb. destruct (Rlt_dec x y); [lra | reflexivity]. Qed.

(** The conversion of one emergent intensity [I]: exactly [0] when
    [I = 0]; the brightness temperature of [|I|] when [I > 0]; its opposite
    when [I < 0]. *)
Lemma brightness_cases (emdat : emitterData) (u l : Z) (te : _transferEqn)
    (I : R) :
  let TB := TB_spec (h physcons) (kB physcons) (c physcons) (freq emdat u l)
              (te_I0 te) (Rabs I) in
  (I = 0 -> brightness physcons emdat u l te I = 0)
  /\ (I < 0 -> brightness physcons emdat u l te I = - TB)
  /\ (0 < I -> brightness physcons emdat u l te I = TB).
Proof.
  intros TB. unfold brightness. repeat split; intros HI.
  - now rewrite (Reqb_true _ _ HI).
  - rewrite Rltb_true by exact HI. rewrite Reqb_false by lra.
    unfold TB, TB_spec. ring.
  - rewrite Rltb_false by lra. rewrite Reqb_false by lra. reflexivity.
Qed.

(** ** Exceptions after the checks *)

Lemma np_log_positive (x : R) : 0 < x -> np_log x = Finite (ln x).
Proof. intros Hx. unfold np_log. now rewrite Rltb_true. Qed.

Lemma np_log_zero (x : R) : x = 0 -> np_log x = NegInf.
Proof.
  intros ->. unfold np_log. rewrite Rltb_false by lra.
  now rewrite Reqb_true.
Qed.

(** Pass [5] runs with [sgn[5] = 0]: both time points are [np.log(0)]. *)
Lemma pass_5_rejected (r : R) : pass_rejected r 5 = true.
Proof.
  unfold pass_rejected, log_arguments. cbn [nth logscale sgn xLim fst snd].
  rewrite !np_log_zero by ring. reflexivity.
Qed.

(** The branch [r_los < 1] never gets past pass [5]. *)
Lemma pencil_interior_call_raises (te : _transferEqn) (f r ICMB : R) :
  pencil_interior_call scipy te f r ICMB = Raise ValueError.
Proof.
  unfold pencil_interior_call.
  change (seq 0 (List.length (xLim r) - 1))
    with [0; 1; 2; 3; 4; 5; 6; 7; 8]%nat.
  cbn [pencil_passes].
  do 5 (match goal with
        | |- (if pass_rejected r ?i then _ else _) = _ =>
            destruct (pass_rejected r i); [reflexivity |]
        end).
  now rewrite pass_5_rejected.
Qed.

Lemma pencil_call_interior (v : R) (te : _transferEqn) (offset TCMB : R)
    (mxstep : Z) :
  pencil_r_los physcons scipy v te TCMB < 1 ->
  LineProfLTE_pencil_call physcons scipy v te offset TCMB mxstep
  = Raise ValueError.
Proof.
  intros Hr. unfold LineProfLTE_pencil_call. cbv zeta.
  rewrite (Rltb_true _ _ Hr). now rewrite pencil_interior_call_raises.
Qed.

Lemma pencil_call_exterior (v : R) (te : _transferEqn) (offset TCMB : R)
    (mxstep : Z) :
  1 <= pencil_r_los physcons scipy v te TCMB ->
  0 <= 1 - offset ^ 2 ->
  LineProfLTE_pencil_call physcons scipy v te offset TCMB mxstep
  = Return (LineProfLTE_pencil physcons scipy v te offset TCMB mxstep).
Proof.
  intros Hr Ho. unfold LineProfLTE_pencil_call, LineProfLTE_pencil.
  cbv zeta. rewrite (Rltb_false _ _ Hr). now rewrite (Rltb_false _ _ Ho).
Qed.

Lemma pencil_call_inv (v : R) (te : _transferEqn) (offset TCMB : R)
    (mxstep : Z) :
  (forall x,
     LineProfLTE_pencil_call physcons scipy v te offset TCMB mxstep
     = Return x ->
     1 <= pencil_r_los physcons scipy v te TCMB
     /\ x = LineProfLTE_pencil physcons scipy v te offset TCMB mxstep)
  /\ (forall e,
        LineProfLTE_pencil_call physcons scipy v te offset TCMB mxstep
        = Raise e -> e = ValueError).
Proof.
  destruct (Rlt_dec (pencil_r_los physcons scipy v te TCMB) 1) as [Hr | Hr].
  - rewrite (pencil_call_interior _ _ _ _ _ Hr).
    split; [discriminate | now intros e [= <-]].
  - apply Rnot_lt_le in Hr.
    destruct (Rlt_dec (1 - offset ^ 2) 0) as [Ho | Ho].
    + unfold LineProfLTE_pencil_call. cbv zeta.
      rewrite (Rltb_false _ _ Hr), (Rltb_true _ _ Ho).
      split; [discriminate | now intros e [= <-]].
    + apply Rnot_lt_le in Ho. rewrite (pencil_call_exterior _ _ _ _ _ Hr Ho).
      split; [intros x [= <-]; now split | discriminate].
Qed.

Lemma intensity_at_call_inv (te : _transferEqn) (offset TCMB : R)
    (mxstep : Z) (beamdisp v : R) :
  (forall x,
     intensity_at_call physcons scipy te offset TCMB mxstep beamdisp v
     = Return x ->
     x = intensity_at physcons scipy te offset TCMB mxstep beamdisp v
     /\ 1 <= pencil_r_los physcons scipy v te TCMB)
  /\ (forall e,
        intensity_at_call physcons scipy te offset TCMB mxstep beamdisp v
        = Raise e -> e = ValueError).
Proof.
  unfold intensity_at_call.
  destruct (pencil_call_inv v te offset TCMB mxstep) as [Hret Hraise].
  destruct (LineProfLTE_pencil_call physcons scipy v te offset TCMB mxstep)
    as [P | e0].
  - split; [| discriminate].
    intros x [= <-]. split; [reflexivity | apply (Hret P eq_refl)].
  - split; [discriminate |]. intros e [= <-]. now apply Hraise.
Qed.

Lemma intensity_at_call_exterior (te : _transferEqn) (offset TCMB : R)
    (mxstep : Z) (beamdisp v : R) :
  1 <= pencil_r_los physcons scipy v te TCMB ->
  0 <= 1 - offset ^ 2 ->
  intensity_at_call physcons scipy te offset TCMB mxstep beamdisp v
  = Return (intensity_at physcons scipy te offset TCMB mxstep beamdisp v).
Proof.
  intros Hr Ho. unfold intensity_at_call.
  now rewrite (pencil_call_exterior _ _ _ _ _ Hr Ho).
Qed.

Lemma line_profile_loop_return (call : R -> outcome R) (g : R -> R)
    (P : R -> Prop) :
  (forall v x, call v = Return x -> x = g v /\ P v) ->
  forall vs iOut,
    line_profile_loop call vs = Return iOut ->
    iOut = map g vs /\ Forall P vs.
Proof.
  intros Hcall. induction vs as [| v vs IH]; intros iOut Hloop.
  - injection Hloop as <-. split; constructor.
  - simpl in Hloop. destruct (call v) as [x |] eqn:Hv; [| discriminate].
    destruct (line_profile_loop call vs) as [rest |]; [| discriminate].
    injection Hloop as <-. destruct (Hcall v x Hv) as [-> HP].
    destruct (IH rest eq_refl) as [-> Hall].
    split; [reflexivity | now constructor].
Qed.

Lemma line_profile_loop_raise (call : R -> outcome R) (e0 : exception) :
  (forall v e, call v = Raise e -> e = e0) ->
  forall vs e, line_profile_loop call vs = Raise e -> e = e0.
Proof.
  intros Hcall. induction vs as [| v vs IH]; intros e Hloop.
  - discriminate.
  - simpl in Hloop. destruct (call v) as [x | e1] eqn:Hv.
    + destruct (line_profile_loop call vs) as [rest | e2];
        [discriminate |].
      injection Hloop as <-. now apply IH.
    + injection Hloop as <-. now apply (Hcall v).
Qed.

Lemma line_profile_loop_all (call : R -> outcome R) (g : R -> R)
    (vs : list R) :
  Forall (fun v => call v = Return (g v)) vs ->
  line_profile_loop call vs = Return (map g vs).
Proof.
  induction 1 as [| v vs Hv _ IH]; simpl.
  - reflexivity.
  - now rewrite Hv, IH.
Qed.

Lemma velocities_raises_kind (vOut : option (list R))
    (vLim : option (R * R)) (nOut : Z) (dv : option R) (e : exception) :
  velocities_raises vOut vLim nOut dv = Some e ->
  e = ValueError \/ e = ZeroDivisionError.
Proof.
  unfold velocities_raises.
  destruct vOut as [vs |].
  - destruct (List.length vs =? 1)%nat; [discriminate |].
    intros [= <-]. now left.
  - destruct dv as [d |].
    + destruct (Reqb d 0); [| discriminate]. intros [= <-]. now right.
    + destruct vLim as [lim |]; [| discriminate].
      destruct (nOut =? 1)%Z; [intros [= <-]; now right |].
      destruct (Reqb (fst lim) (snd lim)); [| discriminate].
      intros [= <-]. now right.
Qed.

(** What is left of the call once the three checks have passed. *)
Lemma lineProfLTE_checked (emdat : emitterData) (u l : Z) (Rad : R)
    (denProf TProf vProf sigmaProf : profile) (offset TCMB : R)
    (vOut : option (list R)) (vLim : option (R * R)) (nOut : Z)
    (dv : option R) (mxstep : Z) (beamdisp : R) :
  EinsteinA emdat u l <> 0 ->
  0 <= offset <= 1 ->
  beamdisp <= 0 \/ offset <= 0 ->
  let te := _transferEqn_init physcons emdat u l Rad denProf TProf vProf
              sigmaProf offset in
  lineProfLTE physcons scipy emdat u l Rad denProf TProf vProf sigmaProf
    offset TCMB vOut vLim nOut dv mxstep beamdisp
  = match velocities_call te vOut vLim nOut dv with
    | Raise e => Raise e
    | Return vs =>
        match line_profile_loop
                (intensity_at_call physcons scipy te offset TCMB mxstep
                   beamdisp) vs with
        | Raise e => Raise e
        | Return iOut => Return (map (brightness physcons emdat u l te) iOut, vs)
        end
    end.
Proof.
  intros HA [Hlo Hhi] Hbeam te. unfold lineProfLTE.
  rewrite (Reqb_false _ _ HA).
  rewrite (Rltb_false offset 0) by exact Hlo.
  rewrite (Rltb_false 1 offset) by exact Hhi.
  cbn [orb].
  assert (Hb : Rltb 0 beamdisp && Rltb 0 offset = false).
  { destruct Hbeam as [H | H].
    - now rewrite (Rltb_false 0 beamdisp) by exact H.
    - rewrite (Rltb_false 0 offset) by exact H. apply andb_false_r. }
  rewrite Hb. reflexivity.
Qed.

(** After the checks only [ValueError] and [ZeroDivisionError] are left. *)
Lemma steps_3_to_6_raise_kind (emdat : emitterData) (u l : Z)
    (te : _transferEqn) (offset TCMB : R) (vOut : option (list R))
    (vLim : option (R * R)) (nOut : Z) (dv : option R) (mxstep : Z)
    (beamdisp : R) (e : exception) :
  match velocities_call te vOut vLim nOut dv with
  | Raise e => Raise e
  | Return vs =>
      match line_profile_loop
              (intensity_at_call physcons scipy te offset TCMB mxstep
                 beamdisp) vs with
      | Raise e => Raise e
      | Return iOut => Return (map (brightness physcons emdat u l te) iOut, vs)
      end
  end = Raise e ->
  e = ValueError \/ e = ZeroDivisionError.
Proof.
  unfold velocities_call.
  destruct (velocities_raises vOut vLim nOut dv) as [e0 |] eqn:Hv.
  - intros [= <-]. exact (velocities_raises_kind _ _ _ _ _ Hv).
  - destruct (line_profile_loop _ _) as [iOut | e1] eqn:Hloop;
      [discriminate |].
    intros [= <-]. left.
    apply (line_profile_loop_raise _ ValueError) in Hloop; [exact Hloop |].
    intros v e2. apply intensity_at_call_inv.
Qed.

(** A returned result, taken apart: the checks passed, Step 3 did not
    raise, every velocity took the branch [r_los >= 1], and the brightness
    temperatures are the conversions of the intensities. *)
Lemma lineProfLTE_return_parts (emdat : emitterData) (u l : Z) (Rad : R)
    (denProf TProf vProf sigmaProf : profile) (offset TCMB : R)
    (vOut : option (list R)) (vLim : option (R * R)) (nOut : Z)
    (dv : option R) (mxstep : Z) (beamdisp : R) (TB vs : list R) :
  lineProfLTE physcons scipy emdat u l Rad denProf TProf vProf sigmaProf
    offset TCMB vOut vLim nOut dv mxstep beamdisp = Return (TB, vs) ->
  let te := _transferEqn_init physcons emdat u l Rad denProf TProf vProf
              sigmaProf offset in
  (EinsteinA emdat u l <> 0 /\ 0 <= offset <= 1
   /\ (beamdisp <= 0 \/ offset <= 0))
  /\ velocities_raises vOut vLim nOut dv = None
  /\ vs = velocities te vOut vLim nOut dv
  /\ Forall (fun v => 1 <= pencil_r_los physcons scipy v te TCMB) vs
  /\ TB = map (brightness physcons emdat u l te)
            (map (intensity_at physcons scipy te offset TCMB mxstep beamdisp)
               vs).
Proof.
  intros H te.
  assert (Hchecks : EinsteinA emdat u l <> 0 /\ 0 <= offset <= 1
                    /\ (beamdisp <= 0 \/ offset <= 0)).
  { revert H. unfold lineProfLTE, Reqb, Rltb.
    destruct (Req_dec_T (EinsteinA emdat u l) 0) as [HA | HA];
      [discriminate |].
    destruct (Rlt_dec offset 0) as [Hlo | Hlo]; [discriminate |].
    destruct (Rlt_dec 1 offset) as [Hhi | Hhi]; [discriminate |].
    destruct (Rlt_dec 0 beamdisp) as [Hb | Hb];
      destruct (Rlt_dec 0 offset) as [Ho | Ho]; cbn [orb andb];
      try discriminate; intros _;
      (split; [exact HA | split; lra]). }
  split; [exact Hchecks |].
  destruct Hchecks as (HA & Ho & Hb).
  rewrite (lineProfLTE_checked _ _ _ _ _ _ _ _ _ _ _ _ _ _ _ _ HA Ho Hb) in H.
  cbv zeta in H. fold te in H. unfold velocities_call in H.
  destruct (velocities_raises vOut vLim nOut dv) as [e0 |]; [discriminate |].
  destruct (line_profile_loop _ _) as [iOut | e1] eqn:Hloop;
    [| discriminate].
  injection H as <- <-.
  apply (line_profile_loop_return _
           (intensity_at physcons scipy te offset TCMB mxstep beamdisp)
           (fun v => 1 <= pencil_r_los physcons scipy v te TCMB)) in Hloop.
  - destruct Hloop as [-> Hall].
    split; [reflexivity | split; [reflexivity | split; [exact Hall |]]].
    reflexivity.
  - intros v x. apply intensity_at_call_inv.
Qed.

(** ** Brightness temperature of the result *)

(** C2. When the call returns [(TB, vs)], there is one entry of [TB] for
    every velocity of [vs], and it is the conversion of the emergent
    intensity [I] computed at that velocity: exactly [0] when [I = 0]; the
    brightness temperature [(h nu / kB) / ln (1 + 2 h nu^3 / (c^2 |I| I0 +
    eps))] when [I > 0]; its opposite when [I < 0]. *)
Theorem C2_brightness_temperature (emdat : emitterData) (u l : Z) (Rad : R)
    (denProf TProf vProf sigmaProf : profile) (offset TCMB : R)
    (vOut : option (list R)) (vLim : option (R * R)) (nOut : Z)
    (dv : option R) (mxstep : Z) (beamdisp : R) (TB vs : list R) :
  lineProfLTE physcons scipy emdat u l Rad denProf TProf vProf sigmaProf
    offset TCMB vOut vLim nOut dv mxstep beamdisp = Return (TB, vs) ->
  let te := _transferEqn_init physcons emdat u l Rad denProf TProf vProf
              sigmaProf offset in
  List.length TB = List.length vs
  /\ forall i, (i < List.length vs)%nat ->
       let I := intensity_at physcons scipy te offset TCMB mxstep beamdisp
                  (nth i vs 0) in
       let T := TB_spec (h physcons) (kB physcons) (c physcons)
                  (freq emdat u l) (te_I0 te) (Rabs I) in
       (I = 0 -> nth i TB 0 = 0)
       /\ (I < 0 -> nth i TB 0 = - T)
       /\ (0 < I -> nth i TB 0 = T).
Proof.
  intros H te. apply lineProfLTE_return_parts in H.
  destruct H as (_ & _ & _ & _ & HTB). fold te in HTB.
  split; [rewrite HTB; now rewrite !length_map |].
  intros i Hi I T.
  assert (Hnth : nth i TB 0 = brightness physcons emdat u l te I).
  { rewrite HTB, map_map.
    rewrite (nth_indep _ 0
               (brightness physcons emdat u l te
                  (intensity_at physcons scipy te offset TCMB mxstep
                     beamdisp 0)))
      by (now rewrite length_map).
    now rewrite (map_nth (fun v => brightness physcons emdat u l te
                            (intensity_at physcons scipy te offset TCMB
                               mxstep beamdisp v))). }
  rewrite Hnth. apply brightness_cases.
Qed.

(** ** The CMB seed *)

Lemma pencil_ICMB_line_centre (v : R) (te : _transferEqn) (TCMB : R) :
  pencil_ICMB physcons v te TCMB =
  ICMB_line_centre (h physcons) (kB physcons) (c physcons) (te_freq te)
    (te_I0 te) TCMB (1 + v / c physcons).
Proof. reflexivity. Qed.

Lemma ICMB_spec_line_centre (hP kBoltz cl nu I0 TCMB f : R) :
  ICMB_spec hP kBoltz cl nu I0 TCMB f =
  f ^ 3 * ICMB_line_centre hP kBoltz cl nu I0 TCMB f.
Proof. unfold ICMB_spec, ICMB_line_centre, Rdiv. ring. Qed.

(** C3 (amended). For every velocity [v], with [f = 1 + v/c], the pencil
    result is the integrated intensity minus
    [ICMB = (2 h nu^3 / c^2) / (exp (h f nu / (kB TCMB)) - 1) / I0], and
    that same [ICMB] is the initial value of the first solve in both
    branches: of the first of the nine segment solves when [r_los < 1], of
    the single solve otherwise.  The prefactor carries no [f^3]. *)
Theorem C3_cmb_seed_and_subtraction (v : R) (te : _transferEqn)
    (offset TCMB : R) (mxstep : Z) :
  let f := 1 + v / c physcons in
  let ICMB :=
    ICMB_line_centre (h physcons) (kB physcons) (c physcons) (te_freq te)
      (te_I0 te) TCMB f in
  let r_los := pencil_r_los physcons scipy v te TCMB in
  LineProfLTE_pencil physcons scipy v te offset TCMB mxstep =
  (if Rltb r_los 1 then
     fold_left (fun Itmp i => pencil_segment scipy te f r_los i Itmp)
       [1; 2; 3; 4; 5; 6; 7; 8]%nat
       (pencil_segment scipy te f r_los 0 ICMB)
   else
     odeint scipy (fun I x => rhs te I x f) ICMB
       (- sqrt (1 - offset ^ 2)) (sqrt (1 - offset ^ 2)) mxstep 1e-11 1e-11)
  - ICMB.
Proof. reflexivity. Qed.

(** ** The domain decomposition *)

Lemma pencil_unfold (v : R) (te : _transferEqn) (offset TCMB : R)
    (mxstep : Z) :
  LineProfLTE_pencil physcons scipy v te offset TCMB mxstep =
  (if Rltb (pencil_r_los physcons scipy v te TCMB) 1 then
     pencil_interior scipy te (pencil_f physcons v)
       (pencil_r_los physcons scipy v te TCMB)
       (pencil_ICMB physcons v te TCMB)
   else
     pencil_exterior scipy te (pencil_f physcons v)
       (pencil_ICMB physcons v te TCMB) offset mxstep)
  - pencil_ICMB physcons v te TCMB.
Proof. reflexivity. Qed.

Lemma pencil_segment_log (te : _transferEqn) (f r : R) (i : nat) (I : R) :
  nth i logscale false = true ->
  pencil_segment scipy te f r i I =
  log_solve scipy te f (nth i sgn 0%Z) 10000 I
    (nth i (xLim r) 0) (nth (S i) (xLim r) 0).
Proof. intros H. unfold pencil_segment. rewrite H. reflexivity. Qed.

Lemma pencil_segment_linear (te : _transferEqn) (f r : R) (i : nat) (I : R) :
  nth i logscale false = false ->
  pencil_segment scipy te f r i I =
  linear_solve scipy te f 10000 I (nth i (xLim r) 0) (nth (S i) (xLim r) 0).
Proof. intros H. unfold pencil_segment. rewrite H. reflexivity. Qed.

(** The breakpoint list has ten entries, hence nine segments. *)
Lemma xLim_length (r : R) : List.length (xLim r) = 10%nat.
Proof. reflexivity. Qed.

(** The loop unrolled: nine passes, each from the result of the one before. *)
Lemma pencil_interior_unroll (te : _transferEqn) (f r ICMB : R) :
  pencil_interior scipy te f r ICMB =
  let seg := pencil_segment scipy te f r in
  seg 8%nat (seg 7%nat (seg 6%nat (seg 5%nat (seg 4%nat
    (seg 3%nat (seg 2%nat (seg 1%nat (seg 0%nat ICMB)))))))).
Proof. reflexivity. Qed.

(** What the pass [i = 5] does, on the segment from [r/100] to [r/10]: it
    is a solve in the logarithmic coordinate with [sgn[5] = 0], between
    [ln (0 * (r/100))] and [ln (0 * (r/10))], of a derivative that is zero
    everywhere. *)
Lemma pencil_segment_5 (te : _transferEqn) (f r I : R) :
  pencil_segment scipy te f r 5 I =
  log_solve scipy te f 0 10000 I (r / 100) (r / 10).
Proof. reflexivity. Qed.

Lemma rhs_log_sgn_0 (self te : _transferEqn) (I logx f : R) :
  rhs_log self I logx te f 0 = 0.
Proof. unfold rhs_log. ring. Qed.

(** C4, what the code does.  The branch is chosen by [r_los < 1] on the
    search result with its sign, so it is also taken for [r_los <= -1].  In
    that branch pass [5], on the segment from [r/100] to [r/10], runs with
    [sgn[5] = 0]: both its time points are [np.log(0)], [odeint] rejects
    them, and the call raises [ValueError] instead of returning the integral
    over the nine segments.  For [0 < r_los < 1] the five passes before it
    complete, and they are the solves of the decomposition: four in the
    logarithmic coordinate of the negative side, from [-1] to [-r/100], and
    the linear one from [-r/100] to [r/100], each started from the result of
    the one before and the first from [ICMB].  Only for [r_los >= 1] (and
    [|offset| <= 1]) does the call return: one linear solve over
    [[-sqrt (1 - offset^2), sqrt (1 - offset^2)]], minus [ICMB]. *)
Theorem C4_interior_branch_raises (v : R) (te : _transferEqn)
    (offset TCMB : R) (mxstep : Z) :
  let f := pencil_f physcons v in
  let ICMB := pencil_ICMB physcons v te TCMB in
  let r := pencil_r_los physcons scipy v te TCMB in
  (r < 1 ->
   pass_rejected r 5 = true
   /\ LineProfLTE_pencil_call physcons scipy v te offset TCMB mxstep
      = Raise ValueError)
  /\ (0 < r < 1 ->
      let I1 := log_solve scipy te f (-1) 10000 ICMB (-1) (-1.1 * r) in
      let I2 := log_solve scipy te f (-1) 10000 I1 (-1.1 * r) (- r) in
      let I3 := log_solve scipy te f (-1) 10000 I2 (- r) (- r / 10) in
      let I4 := log_solve scipy te f (-1) 10000 I3 (- r / 10) (- r / 100) in
      let I5 := linear_solve scipy te f 10000 I4 (- r / 100) (r / 100) in
      pencil_passes (pencil_segment scipy te f r) (pass_rejected r)
        [0; 1; 2; 3; 4]%nat ICMB = Return I5)
  /\ (1 <= r -> 0 <= 1 - offset ^ 2 ->
      LineProfLTE_pencil_call physcons scipy v te offset TCMB mxstep
      = Return (linear_solve scipy te f mxstep ICMB
                  (- sqrt (1 - offset ^ 2)) (sqrt (1 - offset ^ 2))
                - ICMB)).
Proof.
  intros f ICMB r. split; [| split].
  - intros Hr. split; [apply pass_5_rejected |].
    now apply pencil_call_interior.
  - intros [Hr0 Hr1].
    assert (Hpass : forall i, (i < 5)%nat -> pass_rejected r i = false).
    { intros i Hi.
      assert (Hcases : (i = 0 \/ i = 1 \/ i = 2 \/ i = 3 \/ i = 4)%nat)
        by lia.
      decompose [or] Hcases; subst i; unfold pass_rejected, log_arguments;
        cbn [nth logscale sgn xLim fst snd andb];
        try reflexivity;
        rewrite !np_log_positive by lra; reflexivity. }
    cbn [pencil_passes].
    rewrite !Hpass by lia.
    rewrite (pencil_segment_linear te f r 4) by reflexivity.
    rewrite (pencil_segment_log te f r 3), (pencil_segment_log te f r 2),
      (pencil_segment_log te f r 1), (pencil_segment_log te f r 0)
      by reflexivity.
    reflexivity.
  - intros Hr Ho. rewrite (pencil_call_exterior _ _ _ _ _ Hr Ho).
    rewrite pencil_unfold. fold f ICMB r. rewrite (Rltb_false _ _ Hr).
    reflexivity.
Qed.

(** ** The resonance search *)

(** C10. For every velocity [v] the search is [fmin] started at [0.001]
    with [xtol = 1e-5]; its objective at [x] is the negated [rhs] at the
    fixed intensity [ICMB], at the coordinate [sign * x] with [sign = -1]
    when [v < 0] and [sign = 1] otherwise, and at [f = 1 + v/c].  At
    [v = 0] the sign is [+1]. *)
Theorem C10_resonance_search (v : R) (te : _transferEqn) (TCMB : R) :
  let f := 1 + v / c physcons in
  let ICMB := pencil_ICMB physcons v te TCMB in
  let sign := if Rlt_dec v 0 then -1 else 1 in
  pencil_r_los physcons scipy v te TCMB =
  fmin scipy (fun x => - rhs te ICMB (sign * x) f) 0.001 1e-5
  /\ pencil_sign 0 = 1%Z.
Proof.
  cbv zeta. split.
  - unfold pencil_r_los, pencil_sign, pencil_f, Rltb.
    destruct (Rlt_dec v 0); reflexivity.
  - unfold pencil_sign. now rewrite Rltb_false by lra.
Qed.

(** ** The beam *)

(** C5, what the code computes.  With a non-zero beam dispersion the
    intensity at [v] is [1/beamdisp^2] times the quadrature over [[0, 1]] of
    [r * exp (- r^2 / (2 beamdisp^2)) * P], where [P] is the pencil result at
    the offset of the call: one number, the same at every radius [r] of the
    quadrature. *)
Theorem C5_beam_integrand (te : _transferEqn) (offset TCMB : R)
    (mxstep : Z) (beamdisp v : R) :
  beamdisp <> 0 ->
  let P := LineProfLTE_pencil physcons scipy v te offset TCMB mxstep in
  intensity_at physcons scipy te offset TCMB mxstep beamdisp v =
  1 / beamdisp ^ 2
  * quad scipy (fun r => r * exp (- r ^ 2 / (2 * beamdisp ^ 2)) * P) 0 1.
Proof.
  intros Hb P. unfold intensity_at. now rewrite Reqb_false by exact Hb.
Qed.

(** ** Validation *)

(** C6, what the code does.  When [EinsteinA[u,l] = 0] the call stops at
    the first check, whatever the other arguments, but the exception is the
    [NameError] of the misspelt name [depoticError], not a
    [despoticError]. *)
Theorem C6_no_transition_raises (emdat : emitterData) (u l : Z) (Rad : R)
    (denProf TProf vProf sigmaProf : profile) (offset TCMB : R)
    (vOut : option (list R)) (vLim : option (R * R)) (nOut : Z)
    (dv : option R) (mxstep : Z) (beamdisp : R) :
  EinsteinA emdat u l = 0 ->
  lineProfLTE physcons scipy emdat u l Rad denProf TProf vProf sigmaProf
    offset TCMB vOut vLim nOut dv mxstep beamdisp
  = Raise (NameError "depoticError")
  /\ is_despoticError (NameError "depoticError") = false.
Proof.
  intros HA. split; [| reflexivity].
  unfold lineProfLTE. now rewrite (Reqb_true _ _ HA).
Qed.

(** A call that passes the three checks, whose Step 3 does not raise and
    whose velocities all take the branch [r_los >= 1], returns: the velocity
    grid, and for each of its entries the brightness temperature of the
    intensity found there. *)
Lemma lineProfLTE_returns (emdat : emitterData) (u l : Z) (Rad : R)
    (denProf TProf vProf sigmaProf : profile) (offset TCMB : R)
    (vOut : option (list R)) (vLim : option (R * R)) (nOut : Z)
    (dv : option R) (mxstep : Z) (beamdisp : R) :
  EinsteinA emdat u l <> 0 ->
  0 <= offset <= 1 ->
  beamdisp <= 0 \/ offset <= 0 ->
  velocities_raises vOut vLim nOut dv = None ->
  let te := _transferEqn_init physcons emdat u l Rad denProf TProf vProf
              sigmaProf offset in
  let vs := velocities te vOut vLim nOut dv in
  Forall (fun v => 1 <= pencil_r_los physcons scipy v te TCMB) vs ->
  lineProfLTE physcons scipy emdat u l Rad denProf TProf vProf sigmaProf
    offset TCMB vOut vLim nOut dv mxstep beamdisp
  = Return (map (fun v => brightness physcons emdat u l te
                            (intensity_at physcons scipy te offset TCMB
                               mxstep beamdisp v)) vs,
            vs).
Proof.
  intros HA Ho Hbeam Hv te vs Hall.
  rewrite (lineProfLTE_checked _ _ _ _ _ _ _ _ _ _ _ _ _ _ _ _ HA Ho Hbeam).
  cbv zeta. fold te. unfold velocities_call. rewrite Hv. fold vs.
  rewrite (line_profile_loop_all _
             (intensity_at physcons scipy te offset TCMB mxstep beamdisp)).
  - now rewrite map_map.
  - eapply Forall_impl; [| exact Hall]. cbv beta. intros v Hr.
    apply intensity_at_call_exterior; [exact Hr |].
    destruct Ho as [Ho0 Ho1]. nra.
Qed.

(** C9. For a pair [(u, l)] that has a transition, the call raises the
    offset error exactly when [offset < 0] or [offset > 1]; the bounds [0]
    and [1] themselves pass. *)
Theorem C9_offset_validation (emdat : emitterData) (u l : Z) (Rad : R)
    (denProf TProf vProf sigmaProf : profile) (offset TCMB : R)
    (vOut : option (list R)) (vLim : option (R * R)) (nOut : Z)
    (dv : option R) (mxstep : Z) (beamdisp : R) :
  EinsteinA emdat u l <> 0 ->
  lineProfLTE physcons scipy emdat u l Rad denProf TProf vProf sigmaProf
    offset TCMB vOut vLim nOut dv mxstep beamdisp
  = Raise InvalidOffsetError
  <-> (offset < 0 \/ 1 < offset).
Proof.
  intros HA. unfold lineProfLTE. rewrite (Reqb_false _ _ HA).
  unfold Rltb at 1 2.
  destruct (Rlt_dec offset 0) as [Hlo | Hlo]; simpl.
  - split; [intros _; left; exact Hlo | reflexivity].
  - destruct (Rlt_dec 1 offset) as [Hhi | Hhi]; simpl.
    + split; [intros _; right; exact Hhi | reflexivity].
    + split; [| intros [H | H]; contradiction].
      destruct (Rltb 0 beamdisp && Rltb 0 offset); intros H;
        unfold InvalidOffsetError in H; [discriminate H |].
      apply steps_3_to_6_raise_kind in H.
      destruct H as [H | H]; discriminate H.
Qed.

(** ** The velocity grid *)

Lemma ceilZ_unique (z : Z) (x : R) :
  IZR z - 1 < x <= IZR z -> ceilZ x = z.
Proof.
  intros [Hlo Hhi]. unfold ceilZ.
  assert (Hup : up (- x) = (1 - z)%Z).
  { symmetry. apply tech_up; rewrite minus_IZR; lra. }
  lia.
Qed.

Lemma arange_length (start stop step : R) :
  List.length (arange start stop step)
  = Z.to_nat (ceilZ ((stop - start) / step)).
Proof. unfold arange. now rewrite length_map, length_seq. Qed.

(** With the automatic limits [-L] and [L], [L > 0], the grid has [count]
    points as long as the stretch [1e-6] of the upper limit stays well below
    one step. *)
Lemma grid_auto_length (te : _transferEqn) (count : Z) :
  0 < 5 * te_sigmaTot te + Rabs (te_v0 te) ->
  (0 <= count <= 1000000)%Z ->
  List.length (grid_from te count Auto) = Z.to_nat count.
Proof.
  intros HL [Hlo Hhi]. unfold grid_from. cbv zeta.
  destruct (count =? 1)%Z eqn:H1.
  - apply Z.eqb_eq in H1. subst count. reflexivity.
  - apply Z.eqb_neq in H1.
    set (L := 5 * te_sigmaTot te + Rabs (te_v0 te)) in *.
    rewrite arange_length.
    assert (Hx : forall n, n <> 1 ->
              (L * (1 + 1e-6) - - L) / ((L - - L) / (n - 1))
              = (1 + 5e-7) * (n - 1)) by (intros n Hn; field; lra).
    rewrite minus_IZR, Hx by (intros E; apply eq_IZR in E; lia).
    destruct (Z.eq_dec count 0) as [-> | H0].
    + rewrite (ceilZ_unique (-1)) by lra. reflexivity.
    + f_equal. apply ceilZ_unique.
      assert (Hlo2 : (2 <= count)%Z) by lia.
      apply IZR_le in Hlo2, Hhi. lra.
Qed.

Lemma velocities_grid_from (te : _transferEqn) (vOut : option (list R))
    (vLim : option (R * R)) (nOut : Z) (dv : option R) :
  velocities te vOut vLim nOut dv
  = grid_from te nOut (source_spacing_first vOut vLim dv).
Proof.
  destruct vOut as [vs |]; [reflexivity |].
  destruct dv as [d |]; [reflexivity |].
  destruct vLim as [[lo hi] |]; [reflexivity |].
  unfold velocities, grid_from, source_spacing_first. cbv zeta.
  cbn [fst snd].
  replace (-5 * te_sigmaTot te - Rabs (te_v0 te))
    with (- (5 * te_sigmaTot te + Rabs (te_v0 te))) by ring.
  reflexivity.
Qed.

(** C7 (amended). Whenever Step 3 returns a grid, the grid comes from
    exactly one source, chosen with the precedence: an explicit sequence;
    then [(dv, count)], centred at [0]; then [(vLim, count)]; then the
    automatic limits [+-(5 sigmaTot + |v0|)].  With the automatic limits,
    when the limit is positive, Step 3 returns a grid of [count] points for
    every [count] up to [1000000]. *)
Theorem C7_velocity_grid (te : _transferEqn) (vOut : option (list R))
    (vLim : option (R * R)) (nOut : Z) (dv : option R) :
  (forall g,
     velocities_call te vOut vLim nOut dv = Return g ->
     g = grid_from te nOut (source_spacing_first vOut vLim dv))
  /\ (0 < 5 * te_sigmaTot te + Rabs (te_v0 te) ->
      (0 <= nOut <= 1000000)%Z ->
      exists g,
        velocities_call te None None nOut None = Return g
        /\ List.length g = Z.to_nat nOut).
Proof.
  split.
  - intros g. unfold velocities_call.
    destruct (velocities_raises vOut vLim nOut dv); [discriminate |].
    intros [= <-]. apply velocities_grid_from.
  - intros HL Hn. eexists. split; [reflexivity |].
    rewrite velocities_grid_from. now apply grid_auto_length.
Qed.

(** ** The step budget *)

(** C8, what the code does.  When [r_los < 1] the result does not depend
    on [mxstep]: it is the result for the budget [10000], which every one of
    the nine segment solves is given. *)
Theorem C8_interior_budget_fixed (v : R) (te : _transferEqn)
    (offset TCMB : R) (mxstep : Z) :
  pencil_r_los physcons scipy v te TCMB < 1 ->
  LineProfLTE_pencil physcons scipy v te offset TCMB mxstep
  = LineProfLTE_pencil physcons scipy v te offset TCMB 10000.
Proof.
  intros Hr. rewrite !pencil_unfold. now rewrite (Rltb_true _ _ Hr).
Qed.

End Properties.

(** ** Concrete runs *)

Lemma codata_c_pos : 0 < c codata2018.
Proof. unfold c; simpl. lra. Qed.

Lemma codata_h_pos : 0 < h codata2018.
Proof. unfold h; simpl. lra. Qed.

Lemma codata_kB_pos : 0 < kB codata2018.
Proof. unfold kB; simpl. lra. Qed.

Lemma cloud1_I0_pos (offset : R) : 0 < te_I0 (cloud1 offset).
Proof. unfold cloud1, _transferEqn_init, h; simpl. lra. Qed.

Lemma exp_minus_1_pos (t : R) : 0 < t -> 0 < exp t - 1.
Proof.
  intros Ht. assert (H := exp_ineq1 t). lra.
Qed.

Lemma cloud1_ICMB_pos (v offset : R) :
  0 < 1 + v / c codata2018 ->
  0 < ICMB_line_centre (h codata2018) (kB codata2018) (c codata2018)
        (te_freq (cloud1 offset)) (te_I0 (cloud1 offset)) 2.73
        (1 + v / c codata2018).
Proof.
  intros Hf. unfold ICMB_line_centre.
  assert (Hc := codata_c_pos). assert (Hh := codata_h_pos).
  assert (Hk := codata_kB_pos). assert (HI := cloud1_I0_pos offset).
  replace (te_freq (cloud1 offset)) with 1e11 by reflexivity.
  apply Rdiv_lt_0_compat; [apply Rdiv_lt_0_compat |]; try assumption.
  - apply Rdiv_lt_0_compat.
    + apply Rmult_lt_0_compat; [lra |]. apply pow_lt. lra.
    + apply pow_lt. exact Hc.
  - apply exp_minus_1_pos. apply Rdiv_lt_0_compat.
    + apply Rmult_lt_0_compat; [| lra].
      apply Rmult_lt_0_compat; assumption.
    + apply Rmult_lt_0_compat; [assumption | lra].
Qed.

(** C3, as stated, fails at [v = 5e7] cm/s on the cloud of the scenario:
    the seed of the code is not the specification's [ICMB] with [f^3]. *)
Lemma C3_counterexample :
  pencil_ICMB codata2018 5e7 (cloud1 0) 2.73 <>
  ICMB_spec (h codata2018) (kB codata2018) (c codata2018)
    (te_freq (cloud1 0)) (te_I0 (cloud1 0)) 2.73 (1 + 5e7 / c codata2018).
Proof.
  rewrite pencil_ICMB_line_centre, ICMB_spec_line_centre.
  assert (Hc := codata_c_pos).
  assert (Hq : 0 < 5e7 / c codata2018)
    by (apply Rdiv_lt_0_compat; [lra | exact Hc]).
  assert (Hpos := cloud1_ICMB_pos 5e7 0).
  set (q := 5e7 / c codata2018) in *.
  set (X := ICMB_line_centre _ _ _ _ _ _ _) in *.
  assert (HX : 0 < X) by (apply Hpos; lra).
  assert (Hf : 1 < (1 + q) ^ 3) by nra.
  nra.
Qed.

(** *** A run that returns *)

Lemma emitter1_has_transition : EinsteinA emitter1 1 0 <> 0.
Proof. change (1e-5 <> 0). lra. Qed.

(** With a search that ends at [2] the single solve of the [else] branch
    is made; the counting solver then gives the intensity [1]. *)
Lemma counting_pencil_exterior (v : R) (te : _transferEqn) (offset TCMB : R)
    (mxstep : Z) :
  LineProfLTE_pencil codata2018 (counting_routines 2) v te offset TCMB mxstep
  = 1.
Proof.
  rewrite pencil_unfold.
  change (pencil_r_los codata2018 (counting_routines 2) v te TCMB) with 2.
  rewrite Rltb_false by lra.
  unfold pencil_exterior. cbn [odeint counting_routines]. ring.
Qed.

Lemma single_velocity_returns :
  single_velocity_run (counting_routines 2) 0
  = Return ([brightness codata2018 emitter1 1 0 (cloud1 0)
               (intensity_at codata2018 (counting_routines 2) (cloud1 0) 0
                  2.73 10000 0 0)],
            [0]).
Proof.
  unfold single_velocity_run.
  rewrite lineProfLTE_returns.
  - reflexivity.
  - exact emitter1_has_transition.
  - lra.
  - right; lra.
  - reflexivity.
  - cbv zeta. cbn [velocities]. constructor; [| constructor].
    change (1 <= 2). lra.
Qed.

Lemma C2_witness :
  exists TB,
    single_velocity_run (counting_routines 2) 0 = Return (TB, [0])
    /\ nth 0 TB 0
       = TB_spec (h codata2018) (kB codata2018) (c codata2018)
           (freq emitter1 1 0) (te_I0 (cloud1 0))
           (Rabs (intensity_at codata2018 (counting_routines 2) (cloud1 0) 0
                    2.73 10000 0 0)).
Proof.
  eexists. split; [exact single_velocity_returns |].
  destruct (C2_brightness_temperature codata2018 (counting_routines 2)
              emitter1 1 0 3e16 (PyFloat 1e4) (PyFloat 20) (PyFloat 0)
              (PyFloat 0) 0 2.73 (Some [0]) None 100 None 10000 0 _ _
              single_velocity_returns) as [_ Hall].
  destruct (Hall 0%nat (Nat.lt_0_succ 0)) as (_ & _ & Hpos).
  apply Hpos. cbn [nth]. unfold intensity_at.
  rewrite Reqb_true by reflexivity.
  rewrite counting_pencil_exterior. lra.
Defined.

(** *** The branches of the sightline integration *)

Lemma C4_witness :
  LineProfLTE_pencil_call codata2018 (counting_routines 0.001) 0 (cloud1 0)
    0 2.73 10000 = Raise ValueError
  /\ (1 <= Rabs (-2)
      /\ LineProfLTE_pencil_call codata2018 (counting_routines (-2)) 0
           (cloud1 0) 0 2.73 10000 = Raise ValueError)
  /\ LineProfLTE_pencil_call codata2018 (counting_routines 2) 0 (cloud1 0) 0
       2.73 10000
     = Return (linear_solve (counting_routines 2) (cloud1 0)
                 (pencil_f codata2018 0) 10000
                 (pencil_ICMB codata2018 0 (cloud1 0) 2.73)
                 (- sqrt (1 - 0 ^ 2)) (sqrt (1 - 0 ^ 2))
               - pencil_ICMB codata2018 0 (cloud1 0) 2.73).
Proof.
  assert (Hnear : pencil_r_los codata2018 (counting_routines 0.001) 0
                    (cloud1 0) 2.73 < 1)
    by (change (0.001 < 1); lra).
  assert (Hback : pencil_r_los codata2018 (counting_routines (-2)) 0
                    (cloud1 0) 2.73 < 1)
    by (change (-2 < 1); lra).
  assert (Hout : 1 <= pencil_r_los codata2018 (counting_routines 2) 0
                        (cloud1 0) 2.73)
    by (change (1 <= 2); lra).
  split; [| split; [split |]].
  - exact (proj2 (proj1 (C4_interior_branch_raises codata2018
                           (counting_routines 0.001) 0 (cloud1 0) 0 2.73
                           10000) Hnear)).
  - rewrite Rabs_left by lra. lra.
  - exact (proj2 (proj1 (C4_interior_branch_raises codata2018
                           (counting_routines (-2)) 0 (cloud1 0) 0 2.73
                           10000) Hback)).
  - apply (proj2 (proj2 (C4_interior_branch_raises codata2018
                           (counting_routines 2) 0 (cloud1 0) 0 2.73 10000))).
    + exact Hout.
    + lra.
Defined.

(** *** The step budget *)

Lemma C8_witness :
  pencil_r_los codata2018 (budget_routines 0.001) 0 (cloud1 0) 2.73 < 1
  /\ LineProfLTE_pencil codata2018 (budget_routines 0.001) 0 (cloud1 0) 0
       2.73 500
     = LineProfLTE_pencil codata2018 (budget_routines 0.001) 0 (cloud1 0) 0
         2.73 10000.
Proof.
  assert (Hin : pencil_r_los codata2018 (budget_routines 0.001) 0
                  (cloud1 0) 2.73 < 1)
    by (change (0.001 < 1); lra).
  split; [exact Hin |].
  exact (C8_interior_budget_fixed codata2018 (budget_routines 0.001) 0
           (cloud1 0) 0 2.73 500 Hin).
Defined.

(** Called with [mxstep = 500], a search result of [0.001] sends the budget
    [10000] to the solver, a search result of [2] the budget [500]. *)
Lemma budget_probe_interior :
  LineProfLTE_pencil codata2018 (budget_routines 0.001) 0 (cloud1 0) 0
    2.73 500
  = 10000 - pencil_ICMB codata2018 0 (cloud1 0) 2.73.
Proof.
  rewrite pencil_unfold.
  change (pencil_r_los codata2018 (budget_routines 0.001) 0 (cloud1 0)
            2.73) with 0.001.
  rewrite Rltb_true by lra. reflexivity.
Qed.

Lemma budget_probe_exterior :
  LineProfLTE_pencil codata2018 (budget_routines 2) 0 (cloud1 0) 0 2.73 500
  = 500 - pencil_ICMB codata2018 0 (cloud1 0) 2.73.
Proof.
  rewrite pencil_unfold.
  change (pencil_r_los codata2018 (budget_routines 2) 0 (cloud1 0) 2.73)
    with 2.
  rewrite Rltb_false by lra. reflexivity.
Qed.

(** *** The beam *)

Lemma C5_witness :
  1 / 2 <> 0
  /\ intensity_at codata2018 (interval_routines 2) (cloud1 0) 0 2.73 10000
       (1 / 2) 0
     = 1 / (1 / 2) ^ 2
       * quad (interval_routines 2)
           (fun r => r * exp (- r ^ 2 / (2 * (1 / 2) ^ 2))
                     * LineProfLTE_pencil codata2018 (interval_routines 2) 0
                         (cloud1 0) 0 2.73 10000)
           0 1.
Proof.
  assert (Hb : 1 / 2 <> 0) by lra.
  split; [exact Hb |].
  exact (C5_beam_integrand codata2018 (interval_routines 2) (cloud1 0) 0
           2.73 10000 (1 / 2) 0 Hb).
Defined.

Lemma interval_pencil (v : R) (te : _transferEqn) (offset TCMB : R)
    (mxstep : Z) :
  LineProfLTE_pencil codata2018 (interval_routines 2) v te offset TCMB mxstep
  = 2 * sqrt (1 - offset ^ 2).
Proof.
  rewrite pencil_unfold.
  change (pencil_r_los codata2018 (interval_routines 2) v te TCMB) with 2.
  rewrite Rltb_false by lra.
  unfold pencil_exterior. cbn [odeint interval_routines]. ring.
Qed.

(** With a beam dispersion of [1/2] and offset [0], the value of the code
    is not the beam integral of the specification, in which the pencil
    result is taken at the impact parameter [r] of the quadrature. *)
Lemma beam_differs_from_spec :
  intensity_at codata2018 (interval_routines 2) (cloud1 0) 0 2.73 10000
    (1 / 2) 0
  <> beam_spec (interval_routines 2) (1 / 2)
       (fun r => LineProfLTE_pencil codata2018 (interval_routines 2) 0
                   (cloud1 r) r 2.73 10000).
Proof.
  unfold intensity_at, beam_spec. rewrite Reqb_false by lra.
  cbn [quad interval_routines]. rewrite !interval_pencil.
  assert (HE := exp_pos (- ((0 + 1) / 2) ^ 2 / (2 * (1 / 2) ^ 2))).
  set (E := exp _) in *.
  replace (1 - 0 ^ 2) with 1 by ring. rewrite sqrt_1.
  assert (Hs : sqrt (1 - ((0 + 1) / 2) ^ 2) < 1).
  { assert (H := sqrt_lt_1_alt (1 - ((0 + 1) / 2) ^ 2) 1).
    rewrite sqrt_1 in H. apply H. lra. }
  set (q := sqrt _) in *.
  intros Heq.
  assert (Hq : E * (1 - q) = 0) by lra.
  apply Rmult_integral in Hq. lra.
Qed.

(** *** Validation *)

Lemma C6_witness :
  EinsteinA emitter1 0 1 = 0
  /\ lineProfLTE codata2018 (counting_routines 2) emitter1 0 1 3e16
       (PyFloat 1e4) (PyFloat 20) (PyFloat 0) (PyFloat 0) 0 2.73
       (Some [-5e7; 0; 5e7]) None 100 None 10000 0
     = Raise (NameError "depoticError").
Proof.
  assert (HA : EinsteinA emitter1 0 1 = 0) by reflexivity.
  split; [exact HA |].
  exact (proj1 (C6_no_transition_raises codata2018 (counting_routines 2)
                  emitter1 0 1 3e16 (PyFloat 1e4) (PyFloat 20) (PyFloat 0)
                  (PyFloat 0) 0 2.73 (Some [-5e7; 0; 5e7]) None 100 None
                  10000 0 HA)).
Defined.

Lemma C9_witness :
  scenario (counting_routines 2) (-0.1) = Raise InvalidOffsetError
  /\ scenario (counting_routines 2) 1.5 = Raise InvalidOffsetError
  /\ scenario (counting_routines 2) 0 <> Raise InvalidOffsetError
  /\ scenario (counting_routines 2) 1 <> Raise InvalidOffsetError.
Proof.
  assert (Hiff := fun offset =>
    C9_offset_validation codata2018 (counting_routines 2) emitter1 1 0 3e16
      (PyFloat 1e4) (PyFloat 20) (PyFloat 0) (PyFloat 0) offset 2.73
      (Some [-5e7; 0; 5e7]) None 100 None 10000 0 emitter1_has_transition).
  repeat split.
  - apply (proj2 (Hiff (-0.1))). left. lra.
  - apply (proj2 (Hiff 1.5)). right. lra.
  - intros H. apply (proj1 (Hiff 0)) in H. lra.
  - intros H. apply (proj1 (Hiff 1)) in H. lra.
Defined.

(** *** The velocity grid *)

Lemma cloud1_limit_pos :
  0 < 5 * te_sigmaTot (cloud1 0) + Rabs (te_v0 (cloud1 0)).
Proof.
  change (te_v0 (cloud1 0)) with 0. rewrite Rabs_R0.
  change (te_sigmaTot (cloud1 0))
    with (sqrt (sqrt (kB codata2018 * 20 / (28 * mH codata2018)) ^ 2
                + 0 ^ 2)).
  assert (Hq : 0 < kB codata2018 * 20 / (28 * mH codata2018))
    by (unfold kB, mH; simpl; lra).
  apply sqrt_lt_R0 in Hq.
  set (cs0 := sqrt _) in *.
  assert (Hs : 0 < sqrt (cs0 ^ 2 + 0 ^ 2)) by (apply sqrt_lt_R0; nra).
  lra.
Qed.

(** C7, as stated, fails twice.  When both [vLim] and [dv] are given, the
    code takes the grid of [dv], here four points, and not the three points
    between the limits.  And with the automatic limits a count of [3000001]
    gives [3000002] points. *)
Lemma C7_counterexample :
  velocities_call (cloud1 0) None (Some (-1e5, 1e5)) 3 (Some 1e4)
  <> Return (grid_from (cloud1 0) 3
               (source_spec None (Some (-1e5, 1e5)) (Some 1e4)))
  /\ exists g,
       velocities_call (cloud1 0) None None 3000001 None = Return g
       /\ Z.of_nat (List.length g) = 3000002%Z.
Proof.
  split.
  - unfold velocities_call. cbn [velocities_raises].
    rewrite Reqb_false by lra.
    intros Heq. injection Heq as Heq.
    apply (f_equal (@List.length R)) in Heq.
    unfold velocities, source_spec, grid_from in Heq. cbv zeta in Heq.
    rewrite !arange_length in Heq.
    rewrite (ceilZ_unique 4) in Heq by (simpl; lra).
    rewrite (ceilZ_unique 3) in Heq by (simpl; lra).
    discriminate Heq.
  - eexists. split; [reflexivity |].
    unfold velocities. cbv zeta. cbn [fst snd Z.eqb Pos.eqb].
    assert (HL := cloud1_limit_pos).
    replace (-5 * te_sigmaTot (cloud1 0) - Rabs (te_v0 (cloud1 0)))
      with (- (5 * te_sigmaTot (cloud1 0) + Rabs (te_v0 (cloud1 0))))
      by ring.
    set (L := 5 * te_sigmaTot (cloud1 0) + Rabs (te_v0 (cloud1 0))) in *.
    rewrite arange_length.
    rewrite (ceilZ_unique 3000002).
    + apply Z2Nat.id. lia.
    + replace ((L * (1 + 1e-6) - - L) / ((L - - L) / IZR (3000001 - 1)))
        with ((1 + 5e-7) * 3000000) by (simpl; field; lra).
      lra.
Qed.

Lemma C7_witness :
  exists g,
    velocities_call (cloud1 0) None None 100 None = Return g
    /\ List.length g = Z.to_nat 100.
Proof.
  apply (proj2 (C7_velocity_grid (cloud1 0) None None 100 None)).
  - exact cloud1_limit_pos.
  - lia.
Defined.

(** * Further properties of the module *)

Section Further.

Variable physcons : scipy_constants.
Variable scipy : scipy_routines.

(** ** The right-hand sides *)

(** X1. The three right-hand sides written out in the class agree: [rhs_ode]
    and [rhs1] are [rhs] with the coordinate and the intensity exchanged,
    and [rhs_log_ode] is [rhs_log] likewise. *)
Theorem rhs_variants_agree (self te : _transferEqn) (I x logx f : R)
    (s : Z) :
  rhs_ode self x I f = rhs self I x f
  /\ rhs1 self x I f = rhs self I x f
  /\ rhs_log_ode self logx I te f s = rhs_log self I logx te f s.
Proof. repeat split. Qed.

(** X2. The transfer equation is linear in the intensity: [rhs] is an affine
    function of [I], fixed by its values at [I = 0] and [I = 1]. *)
Theorem rhs_affine_in_intensity (te : _transferEqn) (I x f : R) :
  rhs te I x f = rhs te 0 x f + I * (rhs te 1 x f - rhs te 0 x f).
Proof. unfold rhs. cbv zeta. ring. Qed.

Lemma pow2_opp (x : R) : (- x) ^ 2 = x ^ 2.
Proof. ring. Qed.

(** X4. With a float bulk velocity of zero (the default [vProf = 0.0]) the
    derivative is an even function of the sightline coordinate. *)
Theorem rhs_even_without_bulk_velocity (emdat : emitterData) (u l : Z)
    (Rad : R) (denProf TProf sigmaProf : profile) (offset I x f : R) :
  let te := _transferEqn_init physcons emdat u l Rad denProf TProf
              (PyFloat 0) sigmaProf offset in
  rhs te I (- x) f = rhs te I x f.
Proof.
  intros te. unfold rhs. cbv zeta.
  replace (te_beta te) with 0
    by (unfold te, _transferEqn_init; simpl te_beta; unfold Rdiv; ring).
  rewrite pow2_opp. rewrite !Rmult_0_l. reflexivity.
Qed.

(** X5. For a uniform cloud at rest (four float profiles, zero bulk velocity)
    the derivative is the same at every point of the sightline. *)
Theorem rhs_uniform_cloud_constant (emdat : emitterData) (u l : Z) (Rad : R)
    (d0 T0 sigma0 offset I x y f : R) :
  let te := _transferEqn_init physcons emdat u l Rad (PyFloat d0)
              (PyFloat T0) (PyFloat 0) (PyFloat sigma0) offset in
  rhs te I x f = rhs te I y f.
Proof.
  intros te. unfold rhs. cbv zeta.
  replace (te_beta te) with 0
    by (unfold te, _transferEqn_init; simpl te_beta; unfold Rdiv; ring).
  rewrite !Rmult_0_l. reflexivity.
Qed.

(** X6. At offset [0] the derivative in the logarithmic coordinate is the exact
    change of variable [x = sgn * exp logx]: the factor [x^2 / r] is
    [exp logx], the derivative of [x] up to the sign. *)
Theorem rhs_log_change_of_variable (te : _transferEqn) (I logx f : R)
    (s : Z) :
  te_offset te = 0 ->
  rhs_log te I logx te f s
  = IZR s * exp logx * rhs te I (IZR s * exp logx) f.
Proof.
  intros Hoff. unfold rhs_log. rewrite Hoff.
  assert (He := exp_pos logx).
  replace (exp logx ^ 2 + 0 ^ 2) with (exp logx * exp logx) by ring.
  rewrite sqrt_square by lra.
  field. lra.
Qed.

(** ** The object built by [__init__] *)

(** X7. A float profile is normalised to the constant one, whatever its value
    (zero included); a function profile with a non-zero edge value is
    normalised to one at the edge [r = 1]. *)
Theorem normalised_profile_edge (p : profile) :
  (forall x r, p = PyFloat x -> _normFunc_f (profile_func p) r = 1)
  /\ (profile_norm p <> 0 -> _normFunc_f (profile_func p) 1 = 1).
Proof.
  split.
  - intros x r ->. now rewrite profile_func_f.
  - intros Hp. rewrite profile_func_f.
    destruct p as [x | g]; simpl in *; [reflexivity | now field].
Qed.

(** X8. The partition function is evaluated at the physical temperature of the
    profile: normalising by the edge value and scaling back by it in [Z]
    cancel. *)
Theorem partition_function_at_physical_temperature (emdat : emitterData)
    (u l : Z) (Rad : R) (denProf TProf vProf sigmaProf : profile)
    (offset r : R) :
  profile_norm TProf <> 0 ->
  let te := _transferEqn_init physcons emdat u l Rad denProf TProf vProf
              sigmaProf offset in
  _normFunc2_f (te_Z te) (_normFunc_f (te_T te) r)
  = partFunc emdat (profile_value TProf r).
Proof.
  intros HT te. unfold _normFunc2_f.
  change (te_T te) with (profile_func TProf). rewrite profile_func_f.
  change (nf2_func (te_Z te)) with (partFunc emdat).
  change (nf2_norm (te_Z te)) with (profile_norm TProf).
  f_equal. destruct TProf as [x | g]; simpl in *; now field.
Qed.

(** X9. The derived quantities without the wavelength: [Theta] is the line
    energy [h nu] over [kB T0], and [tau0] is [A c^2 d0 R / (2 nu^3)]. *)
Theorem derived_quantities_in_frequency (emdat : emitterData) (u l : Z)
    (Rad : R) (denProf TProf vProf sigmaProf : profile) (offset : R) :
  c physcons <> 0 ->
  freq emdat u l <> 0 ->
  kB physcons * profile_norm TProf <> 0 ->
  let te := _transferEqn_init physcons emdat u l Rad denProf TProf vProf
              sigmaProf offset in
  te_Theta te
  = h physcons * freq emdat u l / (kB physcons * profile_norm TProf)
  /\ te_tau0 te
     = EinsteinA emdat u l * c physcons ^ 2 * profile_norm denProf * Rad
       / (2 * freq emdat u l ^ 3).
Proof.
  intros Hc Hnu HkT te. simpl.
  assert (HkB : kB physcons <> 0) by (intros E; apply HkT; rewrite E; ring).
  assert (HT : profile_norm TProf <> 0)
    by (intros E; apply HkT; rewrite E; ring).
  split; field; repeat split; assumption.
Qed.

(** X10. The total dispersion is never below the edge speed: the automatic
    velocity limits [5 sigmaTot + |v0|] reach at least [6 |v0|]. *)
Theorem sigmaTot_bounds (emdat : emitterData) (u l : Z) (Rad : R)
    (denProf TProf vProf sigmaProf : profile) (offset : R) :
  let te := _transferEqn_init physcons emdat u l Rad denProf TProf vProf
              sigmaProf offset in
  Rabs (te_v0 te) <= te_sigmaTot te
  /\ 6 * Rabs (te_v0 te) <= 5 * te_sigmaTot te + Rabs (te_v0 te).
Proof.
  intros te.
  assert (H : Rabs (te_v0 te) <= te_sigmaTot te).
  { simpl. set (v0 := profile_norm vProf). set (cs0 := sqrt _).
    rewrite <- sqrt_Rsqr_abs. apply sqrt_le_1_alt. unfold Rsqr. nra. }
  split; [exact H | lra].
Qed.

(** ** Brightness temperature *)

(** X12. The conversion is odd: opposite intensities give opposite brightness
    temperatures. *)
Theorem brightness_odd (emdat : emitterData) (u l : Z) (te : _transferEqn)
    (I : R) :
  brightness physcons emdat u l te (- I)
  = - brightness physcons emdat u l te I.
Proof.
  unfold brightness. rewrite Rabs_Ropp.
  destruct (Rtotal_order I 0) as [Hneg | [Hzero | Hpos]].
  - rewrite (Rltb_false (- I) 0), (Reqb_false (- I) 0) by lra.
    rewrite (Rltb_true I 0), (Reqb_false I 0) by lra. ring.
  - rewrite (Reqb_true (- I) 0), (Reqb_true I 0) by lra. ring.
  - rewrite (Rltb_true (- I) 0), (Reqb_false (- I) 0) by lra.
    rewrite (Rltb_false I 0), (Reqb_false I 0) by lra. ring.
Qed.

(** X13. With positive constants and line frequency and a non-negative intensity
    scale, the brightness temperature has the sign of the intensity. *)
Theorem brightness_sign (emdat : emitterData) (u l : Z) (te : _transferEqn)
    (I : R) :
  0 < h physcons -> 0 < kB physcons -> 0 < freq emdat u l ->
  0 <= te_I0 te ->
  (0 < I -> 0 < brightness physcons emdat u l te I)
  /\ (I < 0 -> brightness physcons emdat u l te I < 0).
Proof.
  intros Hh Hk Hnu HI0.
  assert (HTB : forall J, 0 <
    h physcons * freq emdat u l / kB physcons
    / ln (1 + 2 * h physcons * freq emdat u l ^ 3
               / (c physcons ^ 2 * Rabs J * te_I0 te + small))).
  { intros J. apply Rdiv_lt_0_compat.
    - apply Rdiv_lt_0_compat; [apply Rmult_lt_0_compat |]; assumption.
    - rewrite <- ln_1. apply ln_increasing; [lra |].
      assert (Hnum : 0 < 2 * h physcons * freq emdat u l ^ 3).
      { apply Rmult_lt_0_compat; [lra |]. now apply pow_lt. }
      assert (Hden : 0 < c physcons ^ 2 * Rabs J * te_I0 te + small).
      { assert (0 <= c physcons ^ 2) by (apply pow2_ge_0).
        assert (0 <= Rabs J) by apply Rabs_pos.
        assert (0 <= c physcons ^ 2 * Rabs J * te_I0 te)
          by (apply Rmult_le_pos; [apply Rmult_le_pos |]; assumption).
        unfold small. lra. }
      assert (0 < 2 * h physcons * freq emdat u l ^ 3
                  / (c physcons ^ 2 * Rabs J * te_I0 te + small))
        by (now apply Rdiv_lt_0_compat).
      lra. }
  unfold brightness. split; intros HI.
  - rewrite (Rltb_false I 0), (Reqb_false I 0) by lra. apply HTB.
  - rewrite (Rltb_true I 0), (Reqb_false I 0) by lra.
    specialize (HTB I). lra.
Qed.

(** ** Validation and the shape of the result *)

(** X14. The call returns only if the pair has a transition, the offset
    is in [[0, 1]], the beam dispersion and the offset are not both positive,
    a velocity array given by the caller has fewer than two entries, and,
    for every velocity of the grid, the resonance search ended at
    [r_los >= 1]: a single velocity that takes the branch [r_los < 1] makes
    the whole call raise. *)
Theorem lineProfLTE_returns_only_if (emdat : emitterData) (u l : Z)
    (Rad : R) (denProf TProf vProf sigmaProf : profile) (offset TCMB : R)
    (vOut : option (list R)) (vLim : option (R * R)) (nOut : Z)
    (dv : option R) (mxstep : Z) (beamdisp : R) (TB vs : list R) :
  lineProfLTE physcons scipy emdat u l Rad denProf TProf vProf sigmaProf
    offset TCMB vOut vLim nOut dv mxstep beamdisp = Return (TB, vs) ->
  let te := _transferEqn_init physcons emdat u l Rad denProf TProf vProf
              sigmaProf offset in
  (EinsteinA emdat u l <> 0 /\ 0 <= offset <= 1
   /\ (beamdisp <= 0 \/ offset <= 0))
  /\ (forall given, vOut = Some given -> (List.length given < 2)%nat)
  /\ Forall (fun v => 1 <= pencil_r_los physcons scipy v te TCMB) vs.
Proof.
  intros H te. apply lineProfLTE_return_parts in H.
  destruct H as (Hchecks & Hv & _ & Hall & _).
  split; [exact Hchecks | split; [| exact Hall]].
  intros given ->. cbn [velocities_raises] in Hv.
  destruct (List.length given =? 1)%nat eqn:Hlen; [| discriminate].
  apply Nat.eqb_eq in Hlen. lia.
Qed.

(** X15. The third check: the call raises the error of the unsupported
    combination exactly when the first two checks pass and both the beam
    dispersion and the offset are positive. *)
Theorem unsupported_configuration_iff (emdat : emitterData) (u l : Z)
    (Rad : R) (denProf TProf vProf sigmaProf : profile) (offset TCMB : R)
    (vOut : option (list R)) (vLim : option (R * R)) (nOut : Z)
    (dv : option R) (mxstep : Z) (beamdisp : R) :
  lineProfLTE physcons scipy emdat u l Rad denProf TProf vProf sigmaProf
    offset TCMB vOut vLim nOut dv mxstep beamdisp
  = Raise UnsupportedConfigurationError
  <-> (EinsteinA emdat u l <> 0 /\ 0 < offset <= 1 /\ 0 < beamdisp).
Proof.
  unfold lineProfLTE, Reqb, Rltb, UnsupportedConfigurationError.
  destruct (Req_dec_T (EinsteinA emdat u l) 0) as [HA | HA];
    destruct (Rlt_dec offset 0) as [Hlo | Hlo];
    destruct (Rlt_dec 1 offset) as [Hhi | Hhi];
    destruct (Rlt_dec 0 beamdisp) as [Hb | Hb];
    destruct (Rlt_dec 0 offset) as [Ho | Ho]; cbn [orb andb];
    (split;
     [ intros H;
       first [ discriminate H
             | split; [exact HA | split; lra]
             | apply steps_3_to_6_raise_kind in H;
               destruct H as [H | H]; discriminate H ]
     | intros (HA' & Ho' & Hb'); try reflexivity; try contradiction; lra ]).
Qed.

(** X16. A returned result is a pair of sequences of the same length, one
    brightness temperature per velocity, and a velocity sequence given by the
    caller comes back unchanged. *)
Theorem result_aligned_with_velocities (emdat : emitterData) (u l : Z)
    (Rad : R) (denProf TProf vProf sigmaProf : profile) (offset TCMB : R)
    (vOut : option (list R)) (vLim : option (R * R)) (nOut : Z)
    (dv : option R) (mxstep : Z) (beamdisp : R) (TB vs : list R) :
  lineProfLTE physcons scipy emdat u l Rad denProf TProf vProf sigmaProf
    offset TCMB vOut vLim nOut dv mxstep beamdisp = Return (TB, vs) ->
  List.length TB = List.length vs
  /\ (forall given, vOut = Some given -> vs = given).
Proof.
  intros H. apply lineProfLTE_return_parts in H.
  destruct H as (_ & _ & Hvs & _ & HTB). split.
  - rewrite HTB. now rewrite !length_map.
  - intros given ->. exact Hvs.
Qed.

(** ** The beam *)

(** X18. Only the square of the beam dispersion is used: a negative value gives
    the intensity of its opposite. *)
Theorem beam_dispersion_sign_irrelevant (te : _transferEqn)
    (offset TCMB : R) (mxstep : Z) (beamdisp v : R) :
  intensity_at physcons scipy te offset TCMB mxstep (- beamdisp) v
  = intensity_at physcons scipy te offset TCMB mxstep beamdisp v.
Proof.
  unfold intensity_at. rewrite !pow2_opp.
  destruct (Req_dec_T beamdisp 0) as [Hz | Hnz].
  - rewrite (Reqb_true (- beamdisp) 0), (Reqb_true beamdisp 0) by lra.
    reflexivity.
  - rewrite (Reqb_false (- beamdisp) 0), (Reqb_false beamdisp 0) by lra.
    reflexivity.
Qed.

(** X19. With a quadrature through which constant factors pass, the intensity
    for a non-zero beam dispersion is the pencil intensity at the offset of
    the call times a weight that depends on the beam dispersion alone. *)
Theorem beam_is_scaled_pencil (te : _transferEqn) (offset TCMB : R)
    (mxstep : Z) (beamdisp v : R) :
  homogeneous (quad scipy) ->
  beamdisp <> 0 ->
  intensity_at physcons scipy te offset TCMB mxstep beamdisp v
  = LineProfLTE_pencil physcons scipy v te offset TCMB mxstep
    * (1 / beamdisp ^ 2
       * quad scipy (fun r => r * exp (- r ^ 2 / (2 * beamdisp ^ 2))) 0 1).
Proof.
  intros Hq Hb. unfold intensity_at. rewrite (Reqb_false _ _ Hb).
  rewrite (Hq (fun r => r * exp (- r ^ 2 / (2 * beamdisp ^ 2)))). ring.
Qed.

(** ** The velocity grid *)

Lemma ceilZ_spec (x : R) : IZR (ceilZ x) - 1 < x <= IZR (ceilZ x).
Proof.
  unfold ceilZ. rewrite minus_IZR.
  destruct (archimed (- x)) as [Hgt Hle]. lra.
Qed.

Lemma arange_nth (start stop step : R) (i : nat) :
  (i < List.length (arange start stop step))%nat ->
  nth i (arange start stop step) 0 = start + INR i * step.
Proof.
  intros Hi. unfold arange in *. rewrite length_map, length_seq in Hi.
  rewrite (nth_indep _ 0 (start + INR 0 * step))
    by (now rewrite length_map, length_seq).
  rewrite (map_nth (fun i => start + INR i * step)).
  now rewrite seq_nth.
Qed.

Lemma arange_below_stop (start stop step : R) :
  0 < step -> Forall (fun v => v < stop) (arange start stop step).
Proof.
  intros Hstep. unfold arange. apply Forall_forall. intros v Hv.
  apply in_map_iff in Hv. destruct Hv as (i & <- & Hi).
  apply in_seq in Hi. destruct Hi as [_ Hi]. simpl in Hi.
  set (x := (stop - start) / step) in *.
  destruct (ceilZ_spec x) as [Hlo _].
  assert (Hk : (Z.of_nat i + 1 <= ceilZ x)%Z) by lia.
  apply IZR_le in Hk. rewrite plus_IZR, <- INR_IZR_INZ in Hk.
  assert (Hix : INR i < x) by lra.
  assert (Hmul : INR i * step < x * step) by (apply Rmult_lt_compat_r; lra).
  replace (x * step) with (stop - start) in Hmul by (unfold x; field; lra).
  lra.
Qed.

(** X20. From a spacing [dv] and a count [nOut], the grid has [nOut + 1]
    points, [dv * (i - nOut/2)] for [i = 0 .. nOut]: it runs from
    [- dv nOut / 2] to [dv nOut / 2], whatever [vLim] is. *)
Theorem spacing_grid_points (te : _transferEqn) (vLim : option (R * R))
    (nOut : Z) (d : R) :
  d <> 0 ->
  (0 <= nOut)%Z ->
  velocities te None vLim nOut (Some d)
  = map (fun i => d * (INR i - IZR nOut / 2)) (seq 0 (S (Z.to_nat nOut))).
Proof.
  intros Hd Hn. unfold velocities, arange.
  replace ((d * (IZR nOut / 2 + 1e-6) - - d * (IZR nOut / 2)) / d)
    with (IZR nOut + 1e-6) by (field; exact Hd).
  rewrite (ceilZ_unique (nOut + 1)) by (rewrite plus_IZR; lra).
  replace (Z.to_nat (nOut + 1)) with (S (Z.to_nat nOut)) by lia.
  apply map_ext. intros i. ring.
Qed.

(** X21. From limits [lo < hi] with [hi > 0] not smaller than a
    thousandth of the range, and a count [nOut >= 2] small enough that the
    stretch [1e-6 hi] of the upper limit stays within half a step, the grid
    has [nOut] points, starts at [lo] and ends at [hi].  The two bounds keep
    the quotient that [np.arange] rounds up away from the integers, where
    rounding would decide the count. *)
Theorem limits_grid_points (te : _transferEqn) (lo hi : R) (nOut : Z) :
  lo < hi -> 0 < hi ->
  hi - lo <= 1000 * hi ->
  (2 <= nOut)%Z ->
  IZR (nOut - 1) * (1e-6 * hi) <= (hi - lo) / 2 ->
  let grid := velocities te None (Some (lo, hi)) nOut None in
  List.length grid = Z.to_nat nOut
  /\ nth 0 grid 0 = lo
  /\ nth (Z.to_nat (nOut - 1)) grid 0 = hi.
Proof.
  intros Hlohi Hhi Hrange Hn Hstretch grid.
  assert (Hm : 1 <= IZR (nOut - 1)) by (apply IZR_le; lia).
  set (m := IZR (nOut - 1)) in *.
  assert (Hlen : List.length grid = Z.to_nat nOut).
  { unfold grid, velocities. cbv zeta. simpl fst. simpl snd.
    rewrite arange_length. f_equal. apply ceilZ_unique.
    replace (IZR nOut) with (m + 1)
      by (unfold m; rewrite minus_IZR; ring).
    fold m.
    replace ((hi * (1 + 1e-6) - lo) / ((hi - lo) / m))
      with (m + m * (1e-6 * hi) / (hi - lo)) by (field; lra).
    assert (Hq : 0 < m * (1e-6 * hi) / (hi - lo))
      by (apply Rdiv_lt_0_compat; nra).
    assert (Hq1 : m * (1e-6 * hi) / (hi - lo) <= 1).
    { apply (Rmult_le_reg_r (hi - lo)); [lra |].
      replace (m * (1e-6 * hi) / (hi - lo) * (hi - lo))
        with (m * (1e-6 * hi)) by (field; lra).
      lra. }
    lra. }
  split; [exact Hlen |].
  unfold grid in *. unfold velocities in *. cbv zeta in *.
  simpl fst in *. simpl snd in *. fold m in Hlen |- *.
  split.
  - rewrite arange_nth by (rewrite Hlen; lia). simpl INR. ring.
  - rewrite arange_nth by (rewrite Hlen; lia).
    rewrite INR_IZR_INZ, Z2Nat.id by lia. fold m. field. lra.
Qed.

(** X22. From limits [lo < hi] with [hi < 0], [-hi] not smaller than a
    thousandth of the range, every point of the grid is below [hi] and there
    are fewer than [nOut] of them: the upper limit is left out.  The bound on
    [hi] keeps the quotient that [np.arange] rounds up below [nOut - 1] by
    more than rounding can bridge. *)
Theorem limits_grid_misses_negative_upper (te : _transferEqn)
    (lo hi : R) (nOut : Z) :
  lo < hi -> hi < 0 ->
  hi - lo <= 1000 * (- hi) ->
  (2 <= nOut)%Z ->
  let grid := velocities te None (Some (lo, hi)) nOut None in
  Forall (fun v => v < hi) grid
  /\ (List.length grid < Z.to_nat nOut)%nat.
Proof.
  intros Hlohi Hhi Hrange Hn grid.
  assert (Hm : 1 <= IZR (nOut - 1)) by (apply IZR_le; lia).
  unfold grid, velocities. cbv zeta. simpl fst. simpl snd.
  set (m := IZR (nOut - 1)) in *.
  assert (Hstep : 0 < (hi - lo) / m) by (apply Rdiv_lt_0_compat; lra).
  split.
  - eapply Forall_impl; [| apply arange_below_stop; exact Hstep].
    simpl. intros v Hv. lra.
  - rewrite arange_length.
    set (x := (hi * (1 + 1e-6) - lo) / ((hi - lo) / m)).
    assert (Hx : x <= m).
    { unfold x.
      replace ((hi * (1 + 1e-6) - lo) / ((hi - lo) / m))
        with (m + m * (1e-6 * hi) / (hi - lo)) by (field; lra).
      assert (Hq : m * (1e-6 * hi) / (hi - lo) <= 0).
      { apply (Rmult_le_reg_r (hi - lo)); [lra |].
        replace (m * (1e-6 * hi) / (hi - lo) * (hi - lo))
          with (m * (1e-6 * hi)) by (field; lra).
        nra. }
      lra. }
    destruct (ceilZ_spec x) as [Hlo _].
    assert (Hc : (ceilZ x < nOut)%Z).
    { apply lt_IZR. replace (IZR nOut) with (m + 1)
        by (unfold m; rewrite minus_IZR; ring). lra. }
    lia.
Qed.

(** ** The breakpoints of the sightline *)

(** X23. The ten breakpoints are in increasing order exactly when
    [0 < r_los < 10/11]: from [10/11] on, [1.1 r_los] passes the end of the
    sightline and the outermost segments run backwards. *)
Theorem xLim_increasing_iff (r : R) :
  increasing (xLim r) <-> 0 < r < 10 / 11.
Proof.
  unfold xLim. simpl. split.
  - intros (H1 & H2 & H3 & H4 & H5 & H6 & H7 & H8 & H9 & _). lra.
  - intros [H0 H1]. repeat split; lra.
Qed.

(** X24. The logarithms taken in the loop.  A pass with [logscale[i]] true
    solves between [ln] of the two values of [log_arguments]; except in pass
    [5] these are all positive exactly when [r_los > 0]; in pass [5], where
    [sgn[5] = 0], both are zero. *)
Theorem log_arguments_positive_iff (te : _transferEqn) (f r : R) :
  (forall i I, nth i logscale false = true ->
     pencil_segment scipy te f r i I
     = odeint scipy (fun J logx => rhs_log te J logx te f (nth i sgn 0%Z)) I
         (ln (fst (log_arguments r i))) (ln (snd (log_arguments r i)))
         10000 1e-11 1e-11)
  /\ (0 < r <->
      forall i, (i < 9)%nat -> nth i logscale false = true -> i <> 5%nat ->
        0 < fst (log_arguments r i) /\ 0 < snd (log_arguments r i))
  /\ log_arguments r 5 = (0 * (r / 100), 0 * (r / 10))
  /\ fst (log_arguments r 5) = 0 /\ snd (log_arguments r 5) = 0.
Proof.
  split; [| split; [| split; [reflexivity | split]]].
  - intros i I Hi. unfold pencil_segment. rewrite Hi. reflexivity.
  - split.
    + intros Hr i Hi Hlog Hne.
      assert (Hcases : (i = 0 \/ i = 1 \/ i = 2 \/ i = 3 \/ i = 4 \/ i = 5
                        \/ i = 6 \/ i = 7 \/ i = 8)%nat) by lia.
      decompose [or] Hcases; subst i;
        try (simpl in Hlog; discriminate Hlog);
        try (exfalso; apply Hne; reflexivity);
        unfold log_arguments; simpl; lra.
    + intros H.
      destruct (H 1%nat ltac:(lia) eq_refl ltac:(discriminate)) as [_ H1].
      unfold log_arguments in H1. simpl in H1. lra.
  - unfold log_arguments. simpl. ring.
  - unfold log_arguments. simpl. ring.
Qed.

End Further.

(** ** Concrete runs of the further properties *)

Lemma rhs_log_change_of_variable_witness :
  rhs_log (cloud1 0) 1 0 (cloud1 0) 1 (-1)
  = IZR (-1) * exp 0 * rhs (cloud1 0) 1 (IZR (-1) * exp 0) 1.
Proof. apply rhs_log_change_of_variable. reflexivity. Defined.

Lemma normalised_profile_edge_witness :
  _normFunc_f (profile_func (PyFloat 0)) (1 / 2) = 1
  /\ _normFunc_f (profile_func (Callable (fun r => 2 - r))) 1 = 1.
Proof.
  split.
  - apply (proj1 (normalised_profile_edge (PyFloat 0)) 0 (1 / 2)).
    reflexivity.
  - apply (proj2 (normalised_profile_edge (Callable (fun r => 2 - r)))).
    simpl. lra.
Defined.

Lemma partition_function_at_physical_temperature_witness :
  _normFunc2_f
    (te_Z (_transferEqn_init codata2018 emitter1 1 0 3e16 (PyFloat 1e4)
             (Callable (fun r => 30 - 10 * r)) (PyFloat 0) (PyFloat 0) 0))
    (_normFunc_f
       (te_T (_transferEqn_init codata2018 emitter1 1 0 3e16 (PyFloat 1e4)
                (Callable (fun r => 30 - 10 * r)) (PyFloat 0) (PyFloat 0) 0))
       (1 / 2))
  = partFunc emitter1 (profile_value (Callable (fun r => 30 - 10 * r)) (1 / 2)).
Proof.
  apply (partition_function_at_physical_temperature codata2018 emitter1 1 0
           3e16 (PyFloat 1e4) (Callable (fun r => 30 - 10 * r)) (PyFloat 0)
           (PyFloat 0) 0 (1 / 2)).
  simpl. lra.
Defined.

Lemma derived_quantities_in_frequency_witness :
  te_Theta (cloud1 0)
  = h codata2018 * freq emitter1 1 0
    / (kB codata2018 * profile_norm (PyFloat 20))
  /\ te_tau0 (cloud1 0)
     = EinsteinA emitter1 1 0 * c codata2018 ^ 2 * profile_norm (PyFloat 1e4)
       * 3e16 / (2 * freq emitter1 1 0 ^ 3).
Proof.
  apply (derived_quantities_in_frequency codata2018 emitter1 1 0 3e16
           (PyFloat 1e4) (PyFloat 20) (PyFloat 0) (PyFloat 0) 0).
  - assert (H := codata_c_pos). lra.
  - simpl. lra.
  - assert (H := codata_kB_pos). simpl profile_norm. lra.
Defined.

Lemma brightness_sign_witness :
  0 < brightness codata2018 emitter1 1 0 (cloud1 0) 1
  /\ brightness codata2018 emitter1 1 0 (cloud1 0) (-1) < 0.
Proof.
  assert (Hnu : 0 < freq emitter1 1 0) by (simpl; lra).
  assert (HI : 0 <= te_I0 (cloud1 0))
    by (apply Rlt_le; exact (cloud1_I0_pos 0)).
  split.
  - apply (proj1 (brightness_sign codata2018 emitter1 1 0 (cloud1 0) 1
                    codata_h_pos codata_kB_pos Hnu HI)). lra.
  - apply (proj2 (brightness_sign codata2018 emitter1 1 0 (cloud1 0) (-1)
                    codata_h_pos codata_kB_pos Hnu HI)). lra.
Defined.

Lemma lineProfLTE_returns_only_if_witness :
  Forall (fun v => 1 <= pencil_r_los codata2018 (counting_routines 2) v
                         (cloud1 0) 2.73) [0].
Proof.
  exact (proj2 (proj2 (lineProfLTE_returns_only_if codata2018
                         (counting_routines 2) emitter1 1 0 3e16
                         (PyFloat 1e4) (PyFloat 20) (PyFloat 0) (PyFloat 0)
                         0 2.73 (Some [0]) None 100 None 10000 0 _ _
                         single_velocity_returns))).
Defined.

Lemma result_aligned_with_velocities_witness :
  exists TB vs,
    single_velocity_run (counting_routines 2) 0 = Return (TB, vs)
    /\ List.length TB = List.length vs.
Proof.
  eexists. eexists. split; [exact single_velocity_returns |].
  exact (proj1 (result_aligned_with_velocities codata2018
                  (counting_routines 2) emitter1 1 0 3e16 (PyFloat 1e4)
                  (PyFloat 20) (PyFloat 0) (PyFloat 0) 0 2.73 (Some [0])
                  None 100 None 10000 0 _ _ single_velocity_returns)).
Defined.

Lemma midpoint_homogeneous (x_min : R) :
  homogeneous (quad (counting_routines x_min)).
Proof. intros g k lo hi. simpl. ring. Qed.

Lemma beam_is_scaled_pencil_witness :
  intensity_at codata2018 (counting_routines 2) (cloud1 0) 0 2.73 10000
    (1 / 2) 0
  = LineProfLTE_pencil codata2018 (counting_routines 2) 0 (cloud1 0) 0 2.73
      10000
    * (1 / (1 / 2) ^ 2
       * quad (counting_routines 2)
           (fun r => r * exp (- r ^ 2 / (2 * (1 / 2) ^ 2))) 0 1).
Proof.
  apply beam_is_scaled_pencil.
  - exact (midpoint_homogeneous 2).
  - lra.
Defined.

Lemma spacing_grid_points_witness :
  velocities (cloud1 0) None (Some (-1e5, 1e5)) 3 (Some 1e4)
  = map (fun i => 1e4 * (INR i - IZR 3 / 2)) (seq 0 (S (Z.to_nat 3))).
Proof. apply spacing_grid_points; [lra | lia]. Defined.

Lemma limits_grid_points_witness :
  List.length (velocities (cloud1 0) None (Some (-1e5, 1e5)) 3 None)
  = Z.to_nat 3
  /\ nth 0 (velocities (cloud1 0) None (Some (-1e5, 1e5)) 3 None) 0 = -1e5
  /\ nth (Z.to_nat (3 - 1))
       (velocities (cloud1 0) None (Some (-1e5, 1e5)) 3 None) 0 = 1e5.
Proof.
  apply (limits_grid_points (cloud1 0) (-1e5) 1e5 3);
    [lra | lra | lra | lia | simpl; lra].
Defined.

Lemma limits_grid_misses_negative_upper_witness :
  Forall (fun v => v < -1e5)
    (velocities (cloud1 0) None (Some (-3e5, -1e5)) 3 None)
  /\ Nat.lt
       (List.length (velocities (cloud1 0) None (Some (-3e5, -1e5)) 3 None))
       (Z.to_nat 3).
Proof.
  apply (limits_grid_misses_negative_upper (cloud1 0) (-3e5) (-1e5) 3);
    [lra | lra | lra | lia].
Defined.

Lemma log_arguments_positive_iff_witness :
  0 < fst (log_arguments 0.001 1) /\ 0 < snd (log_arguments 0.001 1).
Proof.
  apply (proj1 (proj1 (proj2 (log_arguments_positive_iff
                                (counting_routines 0.001) (cloud1 0) 1
                                0.001)))).
  - lra.
  - lia.
  - reflexivity.
  - discriminate.
Defined.
